(** * The value-display pipeline, the gauge and the raw InfluxQL editor

    A shallow embedding of three front-end units:
    - the display processor ([getDisplayProcessor], [toNumber],
      [toStringProcessor], [getDecimalsForValue]);
    - the [Gauge] component ([getFormattedThresholds], [getFontScale],
      [draw], [calculateGaugeAutoProps]);
    - the [RawInfluxQLEditor] component (its blur and select handlers).

    JavaScript numbers are IEEE 754 binary64 values, embedded as Rocq's
    primitive floats.  Objects that the code spreads or builds as literals
    are finite maps from property names to values.  Objects that the code
    mutates through a shared reference live in a heap.  Functions imported
    from other modules (lodash, the value formats, the scale calculator, the
    plotting library, the transcendental part of [Math]) are fields of
    interfaces; every definition below is parametric in them. *)

From Stdlib Require Import ZArith Floats FloatLemmas Lia Ascii.
From stdpp Require Import base strings gmap list pretty.

Set Warnings "-inexact-float,-register-all".

(** * JavaScript values *)

(** The values a field can carry: primitives, arrays and plain objects. *)
Inductive JsValue : Type :=
| JsUndefined
| JsNull
| JsBool (b : bool)
| JsNum (n : float)
| JsStr (s : string)
| JsArr (xs : list JsValue)
| JsObj (o : gmap string JsValue).

Abbreviation JsObject := (gmap string JsValue).

(** [o.k]: the property when present, [undefined] otherwise. *)
Definition getProperty (o : JsObject) (k : string) : JsValue :=
  default JsUndefined (o !! k).

(** [s | undefined] as a value. *)
Definition optionalString (s : option string) : JsValue :=
  match s with Some s => JsStr s | None => JsUndefined end.

(** [xs[i]] for an integer index: [undefined] (here [None]) out of range. *)
Definition arrayIndex {A} (xs : list A) (i : Z) : option A :=
  if (i <? 0)%Z then None else xs !! Z.to_nat i.

(** JavaScript truthiness of a string. *)
Definition truthyString (s : string) : bool := negb (String.eqb s "").

(** [s.length]: the number of UTF-16 code units of a text, read off its
    UTF-8 bytes.  A continuation byte counts for none, the lead byte of a
    four-byte sequence for two (a surrogate pair), every other byte for
    one. *)
Fixpoint js_length (s : string) : nat :=
  match s with
  | EmptyString => 0
  | String c s =>
      let b := Ascii.nat_of_ascii c in
      (if (b <? 128)%nat then 1
       else if (b <? 192)%nat then 0
       else if (b <? 240)%nat then 1
       else 2)%nat + js_length s
  end.

(** What a [throw] carries. *)
Inductive Exception : Type :=
| TypeError (message : string)
| Thrown (payload : JsValue).

(** The outcome of a call that may throw. *)
Inductive Result (A : Type) : Type :=
| Ok (a : A)
| Throw (e : Exception).
Arguments Ok {A} a.
Arguments Throw {A} e.

Definition bindResult {A B} (r : Result A) (k : A -> Result B) : Result B :=
  match r with Ok a => k a | Throw e => Throw e end.

(** Runs the calls of a list left to right and stops at the first throw. *)
Fixpoint sequenceResults {A} (rs : list (Result A)) : Result (list A) :=
  match rs with
  | [] => Ok []
  | r :: rs =>
      bindResult r (fun a =>
      bindResult (sequenceResults rs) (fun rest => Ok (a :: rest)))
  end.

(** * Numbers *)

Module JsNumber.

Definition number := float.

(** [Math.LN10]. *)
Definition Math_LN10 : number := 2.302585092994046%float.

(** [Math.max] of two arguments: NaN if either is, and [+0] above [-0]. *)
Definition Math_max (x y : number) : number :=
  if is_nan x || is_nan y then nan
  else if (x <? y)%float then y
  else if (y <? x)%float then x
  else if get_sign x then y else x.

(** [Math.min] of two arguments: NaN if either is, and [-0] below [+0]. *)
Definition Math_min (x y : number) : number :=
  if is_nan x || is_nan y then nan
  else if (x <? y)%float then x
  else if (y <? x)%float then y
  else if get_sign x then x else y.

(** The binary64 value of an integer (rounded to nearest); [szero] is the
    sign of the result when the integer is zero. *)
Definition number_of_Z (z : Z) (szero : bool) : number :=
  SF2Prim (binary_normalize prec emax z 0 szero).

Definition number_of_nat (n : nat) : number := number_of_Z (Z.of_nat n) false.

(** [Math.floor]: the largest integral value below or equal to the
    argument; NaN, the infinities and the zeros are returned as they are. *)
Definition Math_floor (x : number) : number :=
  match Prim2SF x with
  | S754_finite s m e =>
      if (0 <=? e)%Z then x
      else
        let q := Z.shiftr (Zpos m) (- e) in
        let exact := (Z.shiftl q (- e) =? Zpos m)%Z in
        if s then number_of_Z (- (if exact then q else q + 1)) true
        else number_of_Z q false
  | _ => x
  end.

(** The remainder operator [x % y]: exact, with the sign of the dividend. *)
Definition js_rem (x y : number) : number :=
  match Prim2SF x, Prim2SF y with
  | S754_nan, _ | _, S754_nan => nan
  | S754_infinity _, _ => nan
  | _, S754_zero _ => nan
  | _, S754_infinity _ => x
  | S754_zero _, _ => x
  | S754_finite sx mx ex, S754_finite _ my ey =>
      let e := Z.min ex ey in
      let r := Z.rem (Z.shiftl (Zpos mx) (ex - e)) (Z.shiftl (Zpos my) (ey - e)) in
      SF2Prim (binary_normalize prec emax (if sx then - r else r) e sx)
  end.

(** The integral part of a number, as an integer (0 for NaN and the
    infinities). *)
Definition Z_of_number (x : number) : Z :=
  match Prim2SF x with
  | S754_finite s m e =>
      let a := if (0 <=? e)%Z then Z.shiftl (Zpos m) e else Z.shiftr (Zpos m) (- e) in
      if s then (- a)%Z else a
  | _ => 0%Z
  end.

End JsNumber.
Export JsNumber.

(** The part of the ECMAScript runtime that is not defined above: the
    transcendental functions of [Math], which engines only approximate,
    and the implicit conversion [ToNumber] applied by arithmetic operators
    and by [Math] functions to a value that is not a number. *)
Class JsRuntime := {
  Math_log : number -> number;
  Math_pow : number -> number -> number;
  ToNumber : JsValue -> number
}.

(** The two lodash conversions the display processor calls. *)
Class Lodash := {
  lodash_toString : JsValue -> string;
  lodash_toNumber : JsValue -> number
}.

(** [_.isBoolean] and [_.isNumber] on the values modelled here. *)
Definition lodash_isBoolean (v : JsValue) : bool :=
  match v with JsBool _ => true | _ => false end.

(** * Types shared by the display processor and the gauge *)

Inductive GrafanaThemeType : Type := ThemeDark | ThemeLight.

(** The parts of [GrafanaTheme] that the code reads: [theme.type],
    [theme.colors.dark8], [theme.colors.gray6] and
    [theme.typography.fontFamily.sansSerif]. *)
Record GrafanaTheme := {
  theme_type : GrafanaThemeType;
  colors_dark8 : string;
  colors_gray6 : string;
  fontFamily_sansSerif : string
}.

(** [Threshold]: a value/color breakpoint. *)
Record Threshold := {
  threshold_value : number;
  threshold_color : string
}.

(** * The display processor: types *)

(** [FieldType]; the code names [FieldType.time] only. *)
Inductive FieldType : Type :=
| FieldType_time
| FieldType_other (name : string).

(** [DecimalCount = number | null | undefined]. *)
Inductive DecimalCount : Type :=
| DecimalUndefined
| DecimalNull
| DecimalNumber (n : number).

Record DecimalInfo := {
  decimals : DecimalCount;
  scaledDecimals : DecimalCount
}.

(** [FormattedValue]: what a value formatter returns. *)
Record FormattedValue := {
  formatted_text : string;
  formatted_prefix : option string;
  formatted_suffix : option string
}.

(** A value formatter as it behaves at one reading of the clock; the
    reading becomes an argument in [getValueFormatAt], further down. *)
Definition ValueFormatter : Type :=
  number -> DecimalCount -> DecimalCount -> option bool -> FormattedValue.

(** A value mapping: its [text] and its other properties. *)
Record ValueMapping := {
  mapping_text : string;
  mapping_rest : JsObject
}.

(** The field configuration: the properties the display processor reads
    or writes ([unit], [decimals], [mappings], [noValue]) and all the
    others. *)
Record FieldConfig := {
  config_unit : option string;
  config_decimals : DecimalCount;
  config_mappings : option (list ValueMapping);
  config_noValue : option string;
  config_rest : JsObject
}.

(** The object literal [{}] as a configuration. *)
Definition emptyConfig : FieldConfig :=
  {| config_unit := None; config_decimals := DecimalUndefined;
     config_mappings := None; config_noValue := None; config_rest := ∅ |}.

(** [config.unit = u]. *)
Definition setUnit (u : string) (c : FieldConfig) : FieldConfig :=
  {| config_unit := Some u; config_decimals := config_decimals c;
     config_mappings := config_mappings c; config_noValue := config_noValue c;
     config_rest := config_rest c |}.

(** Configuration objects are shared between the caller and the processor:
    they live in a heap and a field holds a reference. *)
Abbreviation Heap := (gmap positive FieldConfig).

(** [Partial<Field>]: [type] and [config] may be absent. *)
Record Field := {
  field_type : option FieldType;
  field_config : option positive;
  field_rest : JsObject
}.

Record DisplayProcessorOptions := {
  field : option Field;
  isUtc : option bool;
  theme : option GrafanaTheme
}.

(** [_.isEmpty(options)]: the object has no property. *)
Definition lodash_isEmpty (options : DisplayProcessorOptions) : bool :=
  match field options, isUtc options, theme options with
  | None, None, None => true
  | _, _, _ => false
  end.

(** [_.isNumber(decimalOverride)]. *)
Definition lodash_isNumber (d : DecimalCount) : bool :=
  match d with DecimalNumber _ => true | _ => false end.

(** A display value is an object: [text], [numeric], [prefix], [suffix]
    and whatever the scale calculator adds. *)
Abbreviation DisplayValue := (gmap string JsValue).

(** A processor is a function that runs against the heap of the moment. *)
Definition DisplayProcessor : Type := JsValue -> Heap -> DisplayValue * Heap.

(** The imports of the display processor from the rest of the data
    package. *)
Class GrafanaData := {
  DEFAULT_DATE_TIME_FORMAT : string;
  getValueFormat : string -> ValueFormatter;
  getMappedValue : list ValueMapping -> JsValue -> option ValueMapping;
  getScaleCalculator : Field -> Heap -> option GrafanaTheme -> number -> JsObject
}.

(** * The display processor: code *)

(** The own properties of [timeFormats]. *)
Definition timeFormats : gmap string bool :=
  {[ "dateTimeAsIso" := true; "dateTimeAsUS" := true; "dateTimeFromNow" := true ]}.

(** [timeFormats] is an object literal, so a lookup that misses its own
    properties continues in [Object.prototype], whose properties are all
    truthy (functions, and the prototype object itself). *)
Definition Object_prototype_keys : list string :=
  [ "constructor"; "hasOwnProperty"; "isPrototypeOf"; "propertyIsEnumerable";
    "toLocaleString"; "toString"; "valueOf"; "__proto__";
    "__defineGetter__"; "__defineSetter__"; "__lookupGetter__"; "__lookupSetter__" ].

(** The truthiness of [timeFormats[unit]]. *)
Definition timeFormats_truthy (unit : string) : bool :=
  match timeFormats !! unit with
  | Some b => b
  | None => bool_decide (unit ∈ Object_prototype_keys)
  end.

(** [unit.startsWith('time:')]. *)
Definition startsWith_time (unit : string) : bool := String.prefix "time:" unit.

(** [mappings && mappings.length > 0]. *)
Definition hasMappings (mappings : option (list ValueMapping)) : bool :=
  match mappings with
  | Some (_ :: _) => true
  | _ => false
  end.

(** The object literal [{ text, numeric, prefix, suffix }]. *)
Definition displayValue (text : string) (numeric : number)
    (prefix suffix : option string) : DisplayValue :=
  <["text" := JsStr text]> (<["numeric" := JsNum numeric]>
  (<["prefix" := optionalString prefix]> (<["suffix" := optionalString suffix]> ∅))).

(** [{ ...base, ...extra }]: the properties of [extra] win. *)
Definition spread (base extra : JsObject) : JsObject := extra ∪ base.

(** Where [config] points after [field.config ?? {}]: at the caller's
    object, or at a fresh one that only the processor holds. *)
Inductive ConfigRef : Type :=
| SharedConfig (l : positive)
| FreshConfig (c : FieldConfig).

Definition readConfig (h : Heap) (r : ConfigRef) : FieldConfig :=
  match r with
  | SharedConfig l => default emptyConfig (h !! l)
  | FreshConfig c => c
  end.

(** [config.unit = u] through the reference. *)
Definition assignUnit (u : string) (r : ConfigRef) (h : Heap) : ConfigRef * Heap :=
  match r with
  | SharedConfig l => (r, <[l := setUnit u (readConfig h r)]> h)
  | FreshConfig c => (FreshConfig (setUnit u c), h)
  end.

Section DisplayProcessor.
Context `{JsRuntime} `{Lodash} `{GrafanaData}.

(** Will return any value as a number or NaN. *)
Definition toNumber (value : JsValue) : number :=
  match value with
  | JsNum n => n
  | JsStr "" | JsNull | JsUndefined | JsArr _ => nan
  | JsBool b => if b then 1%float else 0%float
  | _ => lodash_toNumber value
  end.

Definition toStringProcessor : DisplayProcessor := fun value h =>
  (<["text" := JsStr (lodash_toString value)]>
     (<["numeric" := JsNum (toNumber value)]> ∅), h).

Definition getDecimalsForValue (value : number) (decimalOverride : DecimalCount)
    : DecimalInfo :=
  match decimalOverride with
  | DecimalNumber n =>
      (* It's important that scaledDecimals is null here *)
      {| decimals := DecimalNumber n; scaledDecimals := DecimalNull |}
  | _ =>
      let dec := (- Math_floor (Math_log value / Math_LN10) + 1)%float in
      let magn := Math_pow 10%float (- dec)%float in
      let norm := (value / magn)%float in
      let '(size, dec) :=
        if (norm <? 1.5)%float then (1%float, dec)
        else if (norm <? 3)%float then
          (* special case for 2.5, requires an extra decimal *)
          if (2.25 <? norm)%float then (2.5%float, (dec + 1)%float)
          else (2%float, dec)
        else if (norm <? 7.5)%float then (5%float, dec)
        else (10%float, dec) in
      let size := (size * magn)%float in
      (* reduce starting decimals if not needed *)
      let dec := if (js_rem value 1 =? 0)%float then 0%float else dec in
      let decimals := Math_max 0%float dec in
      let scaledDecimals :=
        (decimals - Math_floor (Math_log size / Math_LN10) + 2)%float in
      {| decimals := DecimalNumber decimals;
         scaledDecimals := DecimalNumber scaledDecimals |}
  end.

(** [getMappedValue(mappings, value)] behind its guard
    [mappings && mappings.length > 0]. *)
Definition matchedMapping (config : FieldConfig) (value : JsValue)
    : option ValueMapping :=
  let mappings := config_mappings config in
  if hasMappings mappings then getMappedValue (default [] mappings) value
  else None.

(** Lines 50 to 71 of the processor: [text], [numeric] and [shouldFormat]
    once the value mappings have been consulted. *)
Definition mappedLocals (config : FieldConfig) (value : JsValue)
    : string * number * bool :=
  let text := lodash_toString value in
  let numeric := toNumber value in
  match matchedMapping config value with
  | Some mappedValue =>
      let text := mapping_text mappedValue in
      let v := toNumber (JsStr text) in
      (text, if is_nan v then numeric else v, false)
  | None => (text, numeric, true)
  end.

(** Lines 75 to 87: the formatted [text], [prefix] and [suffix]. *)
Definition formattedLocals (config : FieldConfig) (formatFunc : ValueFormatter)
    (isUtc : option bool) (value : JsValue) (numeric : number)
    : string * option string * option string :=
  (* [value] is the raw value: [Math.log] and the arithmetic of
     [getDecimalsForValue] convert it with [ToNumber] *)
  let d := getDecimalsForValue (ToNumber value) (config_decimals config) in
  let v := formatFunc numeric (decimals d) (scaledDecimals d) isUtc in
  let text := formatted_text v in
  (* Check if the formatted text mapped to a different value *)
  let text :=
    match matchedMapping config (JsStr text) with
    | Some mappedValue => mapping_text mappedValue
    | None => text
    end in
  (text, formatted_prefix v, formatted_suffix v).

(** Lines 74 to 88: the locals when the test of line 91 is reached. *)
Definition localsAtLine91 (config : FieldConfig) (formatFunc : ValueFormatter)
    (isUtc : option bool) (value : JsValue)
    : string * number * option string * option string :=
  let '(text, numeric, shouldFormat) := mappedLocals config value in
  if shouldFormat && negb (lodash_isBoolean value) then
    let '(text, prefix, suffix) :=
      formattedLocals config formatFunc isUtc value numeric in
    (text, numeric, prefix, suffix)
  else (text, numeric, None, None).

(** Lines 96 to 103: the value returned without scale information. *)
Definition withoutScale (config : FieldConfig) (text : string) (numeric : number)
    (prefix suffix : option string) : DisplayValue :=
  let text :=
    if negb (truthyString text) then
      match config_noValue config with
      | Some noValue => if truthyString noValue then noValue else ""
      | None => ""
      end
    else text in
  displayValue text numeric prefix suffix.

(** The body of the processor, run on the configuration of the moment. *)
Definition processValue (config : FieldConfig) (formatFunc : ValueFormatter)
    (scaleFunc : number -> JsObject) (isUtc : option bool) (value : JsValue)
    : DisplayValue :=
  let '(text0, numeric, _) := mappedLocals config value in
  if negb (is_nan numeric) then
    let '(text, numeric, prefix, suffix) :=
      localsAtLine91 config formatFunc isUtc value in
    (* Return the value along with scale info *)
    if truthyString text then
      spread (displayValue text numeric prefix suffix) (scaleFunc numeric)
    else withoutScale config text numeric prefix suffix
  else withoutScale config text0 numeric None None.

(** Lines 33 to 47: what the returned closure captures ([config],
    [formatFunc], [scaleFunc]) and the heap once [config.unit] is settled. *)
Definition processorEnv (field : Field) (theme : option GrafanaTheme) (h : Heap)
    : ConfigRef * ValueFormatter * (number -> JsObject) * Heap :=
  (* const config = field.config ?? {} *)
  let config :=
    match field_config field with
    | Some l => SharedConfig l
    | None => FreshConfig emptyConfig
    end in
  let unit := config_unit (readConfig h config) in
  let '(config, h) :=
    match field_type field with
    | Some FieldType_time =>
        match unit with
        | Some u =>
            if truthyString u && timeFormats_truthy u then
              (* Currently selected unit is valid for time fields *)
              (config, h)
            else if truthyString u && startsWith_time u then
              (* Also OK *)
              (config, h)
            else assignUnit ("time:" ++ DEFAULT_DATE_TIME_FORMAT)%string config h
        | None => assignUnit ("time:" ++ DEFAULT_DATE_TIME_FORMAT)%string config h
        end
    | _ => (config, h)
    end in
  let formatFunc :=
    getValueFormat
      match config_unit (readConfig h config) with
      | Some u => if truthyString u then u else "none"
      | None => "none"
      end in
  let scaleFunc := getScaleCalculator field h theme in
  (config, formatFunc, scaleFunc, h).

Definition getDisplayProcessor (options : option DisplayProcessorOptions)
    (h : Heap) : DisplayProcessor * Heap :=
  match options with
  | None => (toStringProcessor, h)
  | Some options =>
      if lodash_isEmpty options then (toStringProcessor, h)
      else
        match field options with
        | None => (toStringProcessor, h)
        | Some field =>
            let '(config, formatFunc, scaleFunc, h) :=
              processorEnv field (theme options) h in
            (fun value h' =>
               (processValue (readConfig h' config) formatFunc scaleFunc
                  (isUtc options) value, h'),
             h)
        end
  end.

End DisplayProcessor.

(** * The gauge *)

Module Gauge.

Inductive ScaleMode : Type := ScaleMode_absolute | ScaleMode_relative.

Record Scale := {
  mode : ScaleMode;
  thresholds : list Threshold
}.

Record Props := {
  height : number;
  maxValue : number;
  minValue : number;
  scale : Scale;
  showThresholdMarkers : bool;
  showThresholdLabels : bool;
  width : number;
  value : DisplayValue;
  theme : GrafanaTheme
}.

(** The props as the parent passes them: those that [defaultProps] covers
    may be left out. *)
Record GivenProps := {
  given_height : number;
  given_maxValue : option number;
  given_minValue : option number;
  given_scale : option Scale;
  given_showThresholdMarkers : option bool;
  given_showThresholdLabels : option bool;
  given_width : number;
  given_value : DisplayValue;
  given_theme : GrafanaTheme
}.

(** [static defaultProps]. *)
Definition defaultProps_maxValue : number := 100%float.
Definition defaultProps_minValue : number := 0%float.
Definition defaultProps_showThresholdMarkers : bool := true.
Definition defaultProps_showThresholdLabels : bool := false.
Definition defaultProps_scale : Scale :=
  {| mode := ScaleMode_absolute; thresholds := [] |}.

(** The props the component sees: a prop left out takes its default. *)
Definition withDefaultProps (g : GivenProps) : Props :=
  {| height := given_height g;
     maxValue := default defaultProps_maxValue (given_maxValue g);
     minValue := default defaultProps_minValue (given_minValue g);
     scale := default defaultProps_scale (given_scale g);
     showThresholdMarkers :=
       default defaultProps_showThresholdMarkers (given_showThresholdMarkers g);
     showThresholdLabels :=
       default defaultProps_showThresholdLabels (given_showThresholdLabels g);
     width := given_width g;
     value := given_value g;
     theme := given_theme g |}.

(** An entry of [threshold.values]. *)
Record Breakpoint := {
  breakpoint_value : number;
  breakpoint_color : string
}.

Record GaugeOptions := {
  gauge_min : number;
  gauge_max : number;
  gauge_background_color : string;
  gauge_border_color : JsValue;
  gauge_shadow_show : bool;
  gauge_width : number
}.

Record ThresholdOptions := {
  threshold_values : list Breakpoint;
  threshold_label_show : bool;
  threshold_label_margin : number;
  threshold_label_font_size : number;
  threshold_show : bool;
  threshold_width : number
}.

Record ValueOptions := {
  value_color : JsValue;
  value_formatter : unit -> string;
  value_font_size : number;
  value_font_family : string
}.

(** [options.series.gauges]. *)
Record PlotOptions := {
  gauges_gauge : GaugeOptions;
  gauges_frame_show : bool;
  gauges_label_show : bool;
  gauges_layout_margin : number;
  gauges_layout_thresholdWidth : number;
  gauges_layout_vMargin : number;
  gauges_cell_border_width : number;
  gauges_threshold : ThresholdOptions;
  gauges_value : ValueOptions;
  gauges_show : bool
}.

Record PlotSeries := {
  series_data : list (list JsValue);
  series_label : JsValue
}.

(** The arguments of one [console.log] call of [draw]. *)
Record ConsoleEntry := {
  log_message : string;
  log_err : Exception;
  log_options : PlotOptions;
  log_value : DisplayValue
}.

(** The imports of the component from the data and theme packages. *)
Class GrafanaUi := {
  getColorFromHexRgbOrName : string -> GrafanaThemeType -> string;
  formattedValueToString : DisplayValue -> string;
  selectThemeVariant : string (* dark *) -> string (* light *) ->
                       GrafanaThemeType -> string
}.

(** The plotting library: [$.plot] paints on the page and may throw. *)
Class Flot := {
  CanvasElement : Type;
  Dom : Type;
  plot : CanvasElement -> list PlotSeries -> PlotOptions -> Dom -> Result unit * Dom
}.

Section Component.
Context `{GrafanaUi} `{Flot}.

(** What [draw] acts on: the page and the console. *)
Record World := {
  dom : Dom;
  console : list ConsoleEntry
}.

(** The component instance: [this.props] and [this.canvasElement]. *)
Record Instance := {
  props : Props;
  canvasElement : CanvasElement
}.

Definition FONT_SCALE : number := 1%float.

Definition getFormattedThresholds (props : Props) : Result (list Breakpoint) :=
  let thresholds := thresholds (scale props) in
  let lastThreshold := arrayIndex thresholds (Z.of_nat (length thresholds) - 1) in
  bindResult
    (sequenceResults
       (imap (fun index threshold =>
                if (index =? 0)%nat then
                  Ok {| breakpoint_value := minValue props;
                        breakpoint_color :=
                          getColorFromHexRgbOrName (threshold_color threshold)
                            (theme_type (theme props)) |}
                else
                  match arrayIndex thresholds (Z.of_nat index - 1) with
                  | Some previousThreshold =>
                      Ok {| breakpoint_value := threshold_value threshold;
                            breakpoint_color :=
                              getColorFromHexRgbOrName
                                (threshold_color previousThreshold)
                                (theme_type (theme props)) |}
                  | None =>
                      Throw (TypeError "Cannot read property 'color' of undefined")
                  end)
             thresholds))
    (fun formatted =>
       match lastThreshold with
       | Some lastThreshold =>
           Ok (formatted ++
               [ {| breakpoint_value := maxValue props;
                    breakpoint_color :=
                      getColorFromHexRgbOrName (threshold_color lastThreshold)
                        (theme_type (theme props)) |} ])
       | None => Throw (TypeError "Cannot read property 'color' of undefined")
       end).

Definition getFontScale (length : number) : number :=
  if (12 <? length)%float then (FONT_SCALE - (length * 5) / 110)%float
  else (FONT_SCALE - (length * 5) / 101)%float.

Record GaugeAutoProps := {
  titleFontSize : number;
  gaugeHeight : number;
  showLabel : bool
}.

Definition calculateGaugeAutoProps (width height : number) (title : JsValue)
    : GaugeAutoProps :=
  let showLabel :=
    match title with JsNull | JsUndefined => false | _ => true end in
  (* 20% of height * line-height, max 40px *)
  let titleFontSize := Math_min ((width * 0.15) / 1.5)%float 20%float in
  let titleHeight := (titleFontSize * 1.5)%float in
  let availableHeight :=
    if showLabel then (height - titleHeight)%float else height in
  let gaugeHeight := Math_min availableHeight width in
  {| showLabel := showLabel; gaugeHeight := gaugeHeight;
     titleFontSize := titleFontSize |}.

(** Everything [draw] computes before it builds [options]; [values] is the
    result of [this.getFormattedThresholds()]. *)
Definition plotOptions (props : Props) (values : list Breakpoint) : PlotOptions :=
  let value := value props in
  let autoProps :=
    calculateGaugeAutoProps (width props) (height props) (getProperty value "title") in
  let dimension := Math_min (width props) (gaugeHeight autoProps) in
  let backgroundColor :=
    selectThemeVariant (colors_dark8 (theme props)) (colors_gray6 (theme props))
      (theme_type (theme props)) in
  let gaugeWidthReduceRatio :=
    if showThresholdLabels props then 1.5%float else 1%float in
  let gaugeWidth :=
    (Math_min (dimension / 5.5)%float 40%float / gaugeWidthReduceRatio)%float in
  let thresholdMarkersWidth := (gaugeWidth / 5)%float in
  let text := formattedValueToString value in
  (* [text] is a string, so [text !== null] holds *)
  let fontSize :=
    (Math_min (dimension / 4)%float 100%float
     * getFontScale (number_of_nat (js_length text)))%float in
  let thresholdLabelFontSize := (fontSize / 2.5)%float in
  {| gauges_gauge :=
       {| gauge_min := minValue props;
          gauge_max := maxValue props;
          gauge_background_color := backgroundColor;
          gauge_border_color := JsNull;
          gauge_shadow_show := false;
          gauge_width := gaugeWidth |};
     gauges_frame_show := false;
     gauges_label_show := false;
     gauges_layout_margin := 0%float;
     gauges_layout_thresholdWidth := 0%float;
     gauges_layout_vMargin := 0%float;
     gauges_cell_border_width := 0%float;
     gauges_threshold :=
       {| threshold_values := values;
          threshold_label_show := showThresholdLabels props;
          threshold_label_margin := (thresholdMarkersWidth + 1)%float;
          threshold_label_font_size := thresholdLabelFontSize;
          threshold_show := showThresholdMarkers props;
          threshold_width := thresholdMarkersWidth |};
     gauges_value :=
       {| value_color := getProperty value "color";
          value_formatter := fun _ => text;
          value_font_size := fontSize;
          value_font_family := fontFamily_sansSerif (theme props) |};
     gauges_show := true |}.

(** [const plotSeries = { data: [[0, value.numeric]], label: value.title }]. *)
Definition plotSeries (props : Props) : PlotSeries :=
  {| series_data := [[JsNum 0%float; getProperty (value props) "numeric"]];
     series_label := getProperty (value props) "title" |}.

(** The arguments of [console.log] in the [catch] block. *)
Definition renderingError (err : Exception) (options : PlotOptions)
    (value : DisplayValue) : ConsoleEntry :=
  {| log_message := "Gauge rendering error"; log_err := err;
     log_options := options; log_value := value |}.

Definition draw (this : Instance) (w : World) : Result unit * World :=
  (* [options] is built first; [this.getFormattedThresholds()] runs there,
     before the [try] block is entered *)
  match getFormattedThresholds (props this) with
  | Throw e => (Throw e, w)
  | Ok values =>
      let options := plotOptions (props this) values in
      (* try { $.plot(...) } catch (err) { console.log(...) } *)
      match plot (canvasElement this) [plotSeries (props this)] options (dom w) with
      | (Ok _, dom') => (Ok tt, {| dom := dom'; console := console w |})
      | (Throw err, dom') =>
          (Ok tt,
           {| dom := dom';
              console :=
                console w ++ [renderingError err options (value (props this))] |})
      end
  end.

Definition componentDidMount (this : Instance) (w : World) : Result unit * World :=
  draw this w.

Definition componentDidUpdate (this : Instance) (w : World) : Result unit * World :=
  draw this w.

End Component.
End Gauge.

(** * The raw InfluxQL editor *)

Module RawInfluxQLEditor.

(** A call of one of the two callback props. *)
Inductive Callback : Type :=
| onChange (query : JsObject)
| onRunQuery.

(** [SelectableValue<ResultFormat>]. *)
Record SelectableValue := {
  label : option string;
  value : JsValue
}.

Definition RESULT_FORMATS : list SelectableValue :=
  [ {| label := Some "Time series"; value := JsStr "time_series" |};
    {| label := Some "Table"; value := JsStr "table" |};
    {| label := Some "Logs"; value := JsStr "logs" |} ].

Definition DEFAULT_RESULT_FORMAT : JsValue := JsStr "time_series".

(** The two pieces of shadowed state: the text being edited. *)
Record State := {
  currentQuery : JsValue;
  currentAlias : JsValue
}.

(** The [onChange] handlers of the text area and of the alias input. *)
Definition setCurrentQuery (text : string) (st : State) : State :=
  {| currentQuery := JsStr text; currentAlias := currentAlias st |}.

Definition setCurrentAlias (text : string) (st : State) : State :=
  {| currentQuery := currentQuery st; currentAlias := JsStr text |}.

(** The blur handler of both inputs. *)
Definition applyDelayedChangesAndRunQuery (query : JsObject) (st : State)
    : list Callback :=
  [ onChange (spread query
                (<["query" := currentQuery st]> (<["alias" := currentAlias st]> ∅)));
    onRunQuery ].

(** The [onChange] handler of the result-format select. *)
Definition selectOnChange (query : JsObject) (e : SelectableValue) : list Callback :=
  [ onChange (spread query (<["resultFormat" := value e]> ∅)); onRunQuery ].

(** The value the select shows: [query.resultFormat ?? DEFAULT_RESULT_FORMAT]. *)
Definition selectValue (query : JsObject) : JsValue :=
  match getProperty query "resultFormat" with
  | JsNull | JsUndefined => DEFAULT_RESULT_FORMAT
  | v => v
  end.

End RawInfluxQLEditor.

(** * A small instance of every interface

    Used to run the definitions on concrete inputs.  The conversions are
    exact on strings, booleans, [null], [undefined] and integral numbers. *)

Module Sample.

(** The decimal digits of a string, most significant first. *)
Fixpoint parseDigits (s : string) (acc : Z) : option Z :=
  match s with
  | EmptyString => Some acc
  | String c s =>
      let d := Z.of_nat (Ascii.nat_of_ascii c) - 48 in
      if (0 <=? d)%Z && (d <=? 9)%Z then parseDigits s (10 * acc + d)%Z
      else None
  end%Z.

Definition parseInteger (s : string) : number :=
  match s with
  | EmptyString => 0%float
  | String "-"%char (String _ _ as digits) =>
      match parseDigits digits 0 with
      | Some z => number_of_Z (- z) true
      | None => nan
      end
  | _ =>
      match parseDigits s 0 with
      | Some z => number_of_Z z false
      | None => nan
      end
  end.

Definition printNumber (n : number) : string :=
  if is_nan n then "NaN" else pretty (Z_of_number n).

Definition toString (v : JsValue) : string :=
  match v with
  | JsUndefined | JsNull | JsArr _ => ""
  | JsBool b => if b then "true" else "false"
  | JsNum n => printNumber n
  | JsStr s => s
  | JsObj _ => "[object Object]"
  end.

Definition toNumber (v : JsValue) : number :=
  match v with
  | JsUndefined | JsObj _ => nan
  | JsNull | JsArr _ => 0%float
  | JsBool b => if b then 1%float else 0%float
  | JsNum n => n
  | JsStr s => parseInteger s
  end.

Definition ln2 : number := 0.6931471805599453%float.

(** A coarse natural logarithm: exact on the exponent, a truncated series on
    the mantissa. *)
Definition log (x : number) : number :=
  if (0 <? x)%float && (x <? infinity)%float then
    let '(m, e) := FloatOps.Z.frexp x in
    let t := ((m - 1) / (m + 1))%float in
    let t2 := (t * t)%float in
    let r :=
      (number_of_Z e false * ln2
       + 2 * t * (1 + t2 / 3 + t2 * t2 / 5 + t2 * t2 * t2 / 7))%float in
    if is_nan r then 0%float else r
  else if (x =? 0)%float then neg_infinity
  else if (x =? infinity)%float then infinity
  else nan.

(** Powers with an integral exponent. *)
Definition pow (b e : number) : number :=
  let k := Z_of_number e in
  if (0 <=? k)%Z then Z.iter k (fun a => (a * b)%float) 1%float
  else (1 / Z.iter (- k) (fun a => (a * b)%float) 1%float)%float.

#[local] Instance runtime : JsRuntime :=
  {| Math_log := log; Math_pow := pow; ToNumber := toNumber |}.

#[local] Instance lodash : Lodash :=
  {| lodash_toString := toString; lodash_toNumber := toNumber |}.

(** A formatter that prints the number and appends the unit. *)
Definition valueFormat (unit : string) : ValueFormatter :=
  fun n _ _ _ =>
    {| formatted_text := printNumber n;
       formatted_prefix := None;
       formatted_suffix := if String.eqb unit "none" then None else Some unit |}.

(** A value mapping matches when its [value] is the text of the input. *)
Definition mappedValue (mappings : list ValueMapping) (v : JsValue)
    : option ValueMapping :=
  List.find
    (fun m =>
       match mapping_rest m !! "value" with
       | Some (JsStr s) => String.eqb s (toString v)
       | _ => false
       end)
    mappings.

(** One threshold at 8: green below, red from there on. *)
Definition scaleCalculator (_ : Field) (_ : Heap) (_ : option GrafanaTheme)
    (n : number) : JsObject :=
  {[ "color" := JsStr (if (n <? 8)%float then "green" else "red") ]}.

#[local] Instance data : GrafanaData :=
  {| DEFAULT_DATE_TIME_FORMAT := "YYYY-MM-DD HH:mm:ss";
     getValueFormat := valueFormat;
     getMappedValue := mappedValue;
     getScaleCalculator := scaleCalculator |}.

#[local] Instance ui : Gauge.GrafanaUi :=
  {| Gauge.getColorFromHexRgbOrName := fun color _ => color;
     Gauge.formattedValueToString := fun v =>
       match v !! "text" with Some (JsStr s) => s | _ => "" end;
     Gauge.selectThemeVariant := fun dark light t =>
       match t with ThemeDark => dark | ThemeLight => light end |}.

(** A plot that counts its paints and refuses a gauge without a width. *)
#[local] Instance flot : Gauge.Flot :=
  {| Gauge.CanvasElement := unit;
     Gauge.Dom := nat;
     Gauge.plot := fun _ _ options paints =>
       if is_nan (Gauge.gauge_width (Gauge.gauges_gauge options)) then
         (Throw (Thrown (JsStr "Invalid dimensions for plot")), paints)
       else (Ok tt, S paints) |}.

Definition darkTheme : GrafanaTheme :=
  {| theme_type := ThemeDark; colors_dark8 := "#141414"; colors_gray6 := "#e9edf2";
     fontFamily_sansSerif := "Roboto" |}.

(** The mapping [10 -> "5"]. *)
Definition mapTenToFive : ValueMapping :=
  {| mapping_text := "5"; mapping_rest := {[ "value" := JsStr "10" ]} |}.

Definition configWithMapping : FieldConfig :=
  {| config_unit := None; config_decimals := DecimalUndefined;
     config_mappings := Some [mapTenToFive]; config_noValue := None;
     config_rest := ∅ |}.

Definition numberField : Field :=
  {| field_type := Some (FieldType_other "number"); field_config := Some 1%positive;
     field_rest := ∅ |}.

(** A time field that carries no configuration object. *)
Definition bareTimeField : Field :=
  {| field_type := Some FieldType_time; field_config := None; field_rest := ∅ |}.

Definition timeField : Field :=
  {| field_type := Some FieldType_time; field_config := Some 1%positive;
     field_rest := ∅ |}.

Definition optionsOf (f : Field) : DisplayProcessorOptions :=
  {| field := Some f; isUtc := None; theme := None |}.

Definition twoThresholds : list Threshold :=
  [ {| threshold_value := neg_infinity; threshold_color := "green" |};
    {| threshold_value := 80%float; threshold_color := "red" |} ].

Definition gaugeProps (w : number) (ths : list Threshold) : Gauge.Props :=
  {| Gauge.height := 200%float; Gauge.maxValue := 100%float;
     Gauge.minValue := 0%float;
     Gauge.scale := {| Gauge.mode := Gauge.ScaleMode_absolute;
                       Gauge.thresholds := ths |};
     Gauge.showThresholdMarkers := true; Gauge.showThresholdLabels := false;
     Gauge.width := w;
     Gauge.value := displayValue "42" 42%float None None;
     Gauge.theme := darkTheme |}.

End Sample.

(** * Facts about binary64 arithmetic

    Which operations can produce NaN.  The rounding function of the
    specification returns NaN only on a negative mantissa, which none of the
    operations feeds it. *)

Section FloatFacts.

Definition sf_is_nan (x : spec_float) : bool :=
  match x with S754_nan => true | _ => false end.

Definition sf_is_finite (x : spec_float) : Prop :=
  exists s m e, x = S754_finite s m e.

Lemma is_nan_Prim2SF (x : float) : is_nan x = sf_is_nan (Prim2SF x).
Proof.
  unfold Prim2SF. destruct (is_nan x); [reflexivity|].
  destruct (is_zero x); [reflexivity|].
  destruct (is_infinity x); [reflexivity|].
  destruct (FloatOps.Z.frexp x) as [r ex].
  destruct (shr_fexp _ _ _ _ _) as [sh e'].
  destruct (shr_m sh); reflexivity.
Qed.

Lemma shr_1_nonneg mrs : (0 <= shr_m mrs)%Z -> (0 <= shr_m (shr_1 mrs))%Z.
Proof.
  destruct mrs as [m r s]; simpl. destruct m as [|p|p]; simpl; [lia| |lia].
  destruct p; simpl; lia.
Qed.

Lemma iter_pos_shr_1_nonneg p : forall mrs,
  (0 <= shr_m mrs)%Z -> (0 <= shr_m (SpecFloat.iter_pos shr_1 p mrs))%Z.
Proof.
  induction p as [p IH|p IH|]; intros mrs Hm; simpl.
  - apply IH, IH, shr_1_nonneg, Hm.
  - apply IH, IH, Hm.
  - apply shr_1_nonneg, Hm.
Qed.

Lemma shr_fexp_nonneg pr em m e l :
  (0 <= m)%Z -> (0 <= shr_m (fst (shr_fexp pr em m e l)))%Z.
Proof.
  intros Hm. unfold shr_fexp, shr.
  assert (H0 : (0 <= shr_m (shr_record_of_loc m l))%Z).
  { destruct l as [|[]]; simpl; exact Hm. }
  destruct (_ - e)%Z; simpl; auto using iter_pos_shr_1_nonneg.
Qed.

Lemma round_nearest_even_nonneg m l :
  (0 <= m)%Z -> (0 <= round_nearest_even m l)%Z.
Proof.
  intros Hm. destruct l as [|[]]; simpl; try lia. destruct (Z.even m); lia.
Qed.

Lemma binary_round_aux_not_nan pr em sx mx ex lx :
  (0 <= mx)%Z -> sf_is_nan (binary_round_aux pr em sx mx ex lx) = false.
Proof.
  intros Hm. unfold binary_round_aux.
  pose proof (shr_fexp_nonneg pr em mx ex lx Hm) as H1.
  destruct (shr_fexp pr em mx ex lx) as [mrs' e']; simpl in H1.
  pose proof (shr_fexp_nonneg pr em _ e' loc_Exact
                (round_nearest_even_nonneg _ (loc_of_shr_record mrs') H1)) as H2.
  destruct (shr_fexp pr em (round_nearest_even _ _) e' loc_Exact) as [mrs'' e''].
  simpl in H2. destruct (shr_m mrs''); [reflexivity| |lia].
  destruct (_ <=? _)%Z; reflexivity.
Qed.

Lemma binary_round_not_nan pr em sx mx ex :
  sf_is_nan (binary_round pr em sx mx ex) = false.
Proof.
  unfold binary_round. destruct (shl_align _ _ _) as [mz ez].
  apply binary_round_aux_not_nan. lia.
Qed.

Lemma binary_normalize_not_nan pr em m e sz :
  sf_is_nan (binary_normalize pr em m e sz) = false.
Proof.
  destruct m; simpl; auto using binary_round_not_nan.
Qed.

Lemma SFadd_not_nan x y :
  sf_is_nan x = false -> sf_is_finite y -> sf_is_nan (SF64add x y) = false.
Proof.
  intros Hx (s & m & e & ->). unfold SF64add, SFadd.
  destruct x; try reflexivity; try discriminate.
  apply binary_normalize_not_nan.
Qed.

Lemma SFdiv_not_nan x y :
  sf_is_nan x = false -> sf_is_finite y -> sf_is_nan (SF64div x y) = false.
Proof.
  intros Hx (s & m & e & ->). unfold SF64div, SFdiv.
  destruct x as [sx|sx| |sx mx ex]; try reflexivity; try discriminate.
  unfold SFdiv_core_binary.
  set (m' := match _ with Z0 => _ | Zpos _ => _ | Zneg _ => _ end).
  assert (Hm' : (0 <= m')%Z).
  { subst m'. destruct (_ - _)%Z; try lia. apply Z.shiftl_nonneg. lia. }
  pose proof (Z.div_pos m' (Zpos m) Hm' ltac:(lia)) as Hq.
  unfold Z.div in Hq. destruct (Z.div_eucl m' (Zpos m)) as [q r].
  apply binary_round_aux_not_nan. exact Hq.
Qed.

Lemma SFldexp_not_nan x e :
  sf_is_nan x = false -> sf_is_nan (SFldexp prec emax x e) = false.
Proof.
  destruct x; simpl; auto using binary_round_not_nan.
Qed.

Lemma is_nan_opp (x : float) : is_nan (- x) = is_nan x.
Proof.
  rewrite !is_nan_Prim2SF, opp_spec. destruct (Prim2SF x); reflexivity.
Qed.

Lemma is_nan_add_finite (x y : float) :
  is_nan x = false -> sf_is_finite (Prim2SF y) -> is_nan (x + y) = false.
Proof.
  rewrite !is_nan_Prim2SF, add_spec. apply SFadd_not_nan.
Qed.

Lemma is_nan_div_finite (x y : float) :
  is_nan x = false -> sf_is_finite (Prim2SF y) -> is_nan (x / y) = false.
Proof.
  rewrite !is_nan_Prim2SF, div_spec. apply SFdiv_not_nan.
Qed.

Lemma is_nan_SF2Prim x : sf_is_nan x = false -> is_nan (SF2Prim x) = false.
Proof.
  destruct x as [[]|[]| |s m e]; try reflexivity; try discriminate.
  intros _. unfold SF2Prim.
  assert (Hl : is_nan (FloatOps.Z.ldexp (of_uint63 (Uint63.of_Z (Zpos m))) e) = false).
  { rewrite is_nan_Prim2SF, Z_ldexp_spec. apply SFldexp_not_nan.
    rewrite of_uint63_spec. apply binary_normalize_not_nan. }
  destruct s; [rewrite is_nan_opp|]; exact Hl.
Qed.

Lemma is_nan_number_of_Z z sz : is_nan (number_of_Z z sz) = false.
Proof. apply is_nan_SF2Prim, binary_normalize_not_nan. Qed.

Lemma is_nan_Math_floor (x : number) : is_nan (Math_floor x) = is_nan x.
Proof.
  unfold Math_floor. destruct (Prim2SF x) as [| | |s m e] eqn:E; try reflexivity.
  destruct (0 <=? e)%Z; [reflexivity|].
  rewrite (is_nan_Prim2SF x), E. simpl.
  destruct s; apply is_nan_number_of_Z.
Qed.

Lemma one_is_finite : sf_is_finite (Prim2SF 1).
Proof. vm_compute. eauto. Qed.

Lemma Math_LN10_is_finite : sf_is_finite (Prim2SF Math_LN10).
Proof. vm_compute. eauto. Qed.

Lemma Math_max_zero_nonneg (d : number) :
  is_nan d = false -> (0 <=? Math_max 0 d)%float = true.
Proof.
  intros Hd. unfold Math_max. rewrite Hd. simpl.
  destruct (0 <? d)%float eqn:E.
  - rewrite ltb_spec in E. rewrite leb_spec. unfold SFltb in E. unfold SFleb.
    destruct (SFcompare _ _) as [[]|]; congruence.
  - destruct (d <? 0)%float; reflexivity.
Qed.

End FloatFacts.

(** * The display processor: numeric conversion and decimals *)

Section NumericFacts.
Context `{JsRuntime} `{Lodash}.

(** C6. [toNumber] returns a number unchanged, turns [true] into 1 and
    [false] into 0, and yields NaN on the empty string, [null], [undefined]
    and every array. *)
Theorem toNumber_conversions :
  (forall n : number, toNumber (JsNum n) = n) /\
  toNumber (JsBool true) = 1%float /\
  toNumber (JsBool false) = 0%float /\
  toNumber (JsStr "") = nan /\
  toNumber JsNull = nan /\
  toNumber JsUndefined = nan /\
  (forall xs : list JsValue, toNumber (JsArr xs) = nan).
Proof. repeat split. Qed.

(** [Math.log] of a positive finite number is a number. *)
Definition Math_log_defined_on_positive : Prop :=
  forall x : number,
    (0 <? x)%float = true -> (x <? infinity)%float = true ->
    is_nan (Math_log x) = false.

(** The first value of [dec] is a number as soon as the logarithm is. *)
Lemma initial_dec_not_nan (value : number) :
  is_nan (Math_log value) = false ->
  is_nan (- Math_floor (Math_log value / Math_LN10) + 1)%float = false.
Proof.
  intros Hlog. apply is_nan_add_finite; [|exact one_is_finite].
  rewrite is_nan_opp, is_nan_Math_floor.
  apply is_nan_div_finite; [exact Hlog|exact Math_LN10_is_finite].
Qed.

(** C3. With a numeric [decimalOverride] the result is exactly
    [{ decimals: decimalOverride, scaledDecimals: null }].  Otherwise, for
    every positive finite value, [decimals] is a number that is at least 0,
    and it is 0 whenever [value % 1 === 0]. *)
Theorem getDecimalsForValue_rounding (value : number) (decimalOverride : DecimalCount) :
  (forall n, decimalOverride = DecimalNumber n ->
     getDecimalsForValue value decimalOverride =
       {| decimals := DecimalNumber n; scaledDecimals := DecimalNull |}) /\
  (Math_log_defined_on_positive ->
   lodash_isNumber decimalOverride = false ->
   (0 <? value)%float = true -> (value <? infinity)%float = true ->
   exists d : number,
     decimals (getDecimalsForValue value decimalOverride) = DecimalNumber d /\
     (0 <=? d)%float = true /\
     ((js_rem value 1 =? 0)%float = true -> d = 0%float)).
Proof.
  split.
  - intros n ->. reflexivity.
  - intros Hlog Hover Hpos Hfin.
    pose proof (initial_dec_not_nan value (Hlog value Hpos Hfin)) as Hdec.
    assert (Hdec1 : is_nan ((- Math_floor (Math_log value / Math_LN10) + 1) + 1)%float = false).
    { apply is_nan_add_finite; [exact Hdec|exact one_is_finite]. }
    unfold getDecimalsForValue.
    destruct decimalOverride as [| |n]; [| |discriminate Hover].
    all: set (dec := (- Math_floor (Math_log value / Math_LN10) + 1)%float) in *.
    all: set (norm := (value / Math_pow 10 (- dec))%float).
    all: destruct (js_rem value 1 =? 0)%float eqn:Hint.
    all: destruct (norm <? 1.5)%float; [|destruct (norm <? 3)%float;
           [destruct (2.25 <? norm)%float|destruct (norm <? 7.5)%float]].
    all: cbn [decimals]; eexists; split; [reflexivity|].
    all: split; [|first [discriminate | intros _; reflexivity]].
    all: first [reflexivity | apply Math_max_zero_nonneg; assumption].
Qed.

End NumericFacts.

(** * The display processor: the returned closure *)

(** An absent property, [undefined] or a string. *)
Definition isOptionalString (v : option JsValue) : Prop :=
  v = None \/ v = Some JsUndefined \/ exists s, v = Some (JsStr s).

(** The text/numeric/prefix/suffix tuple: [text] is a string, [numeric] a
    number, [prefix] and [suffix] optional strings. *)
Definition isDisplayValueTuple (r : DisplayValue) : Prop :=
  (exists text, r !! "text" = Some (JsStr text)) /\
  (exists numeric, r !! "numeric" = Some (JsNum numeric)) /\
  isOptionalString (r !! "prefix") /\
  isOptionalString (r !! "suffix").

(** The property names of the tuple. *)
Definition tupleKeys : list string := ["text"; "numeric"; "prefix"; "suffix"].

(** The units that [timeFormats] lists. *)
Definition recognizedTimeFormats : list string :=
  ["dateTimeAsIso"; "dateTimeAsUS"; "dateTimeFromNow"].

Section ProcessorFacts.
Context `{JsRuntime} `{Lodash} `{GrafanaData}.

Lemma getDisplayProcessor_with_field options f h :
  field options = Some f ->
  getDisplayProcessor (Some options) h =
    let env := processorEnv f (theme options) h in
    (fun value h' =>
       (processValue (readConfig h' env.1.1.1) env.1.1.2 env.1.2
          (isUtc options) value, h'),
     env.2).
Proof.
  intros Hf. unfold getDisplayProcessor, lodash_isEmpty. rewrite Hf.
  destruct (processorEnv f (theme options) h) as [[[config formatFunc] scaleFunc] h1].
  reflexivity.
Qed.

Lemma truthyString_true s : truthyString s = true <-> s <> "".
Proof.
  unfold truthyString. destruct (String.eqb_spec s ""); simpl; split; congruence.
Qed.

Lemma optionalString_is_optional s : isOptionalString (Some (optionalString s)).
Proof. destruct s; [right; right; eauto | right; left; reflexivity]. Qed.

Lemma displayValue_lookup text numeric prefix suffix :
  displayValue text numeric prefix suffix !! "text" = Some (JsStr text) /\
  displayValue text numeric prefix suffix !! "numeric" = Some (JsNum numeric) /\
  displayValue text numeric prefix suffix !! "prefix" = Some (optionalString prefix) /\
  displayValue text numeric prefix suffix !! "suffix" = Some (optionalString suffix).
Proof. unfold displayValue. repeat split; by simplify_map_eq. Qed.

Lemma displayValue_is_tuple text numeric prefix suffix :
  isDisplayValueTuple (displayValue text numeric prefix suffix).
Proof.
  destruct (displayValue_lookup text numeric prefix suffix) as (Ht & Hn & Hp & Hs).
  unfold isDisplayValueTuple. rewrite Ht, Hn, Hp, Hs.
  repeat split; eauto using optionalString_is_optional.
Qed.

(** A spread that brings none of the tuple's properties keeps the tuple. *)
Lemma spread_is_tuple (base extra : JsObject) :
  (forall k, k ∈ tupleKeys -> extra !! k = None) ->
  isDisplayValueTuple base -> isDisplayValueTuple (spread base extra).
Proof.
  intros Hextra (Ht & Hn & Hp & Hs).
  assert (Hk : forall k, k ∈ tupleKeys -> spread base extra !! k = base !! k).
  { intros k Hin. unfold spread. apply lookup_union_r, Hextra, Hin. }
  unfold isDisplayValueTuple.
  rewrite !Hk by (apply list_elem_of_In; simpl; tauto). done.
Qed.

Lemma withoutScale_is_tuple config text numeric prefix suffix :
  isDisplayValueTuple (withoutScale config text numeric prefix suffix).
Proof. apply displayValue_is_tuple. Qed.

Lemma processValue_is_tuple config formatFunc scaleFunc isUtc value :
  (forall n k, k ∈ tupleKeys -> scaleFunc n !! k = None) ->
  isDisplayValueTuple (processValue config formatFunc scaleFunc isUtc value).
Proof.
  intros Hscale. unfold processValue.
  destruct (mappedLocals config value) as [[text0 numeric0] shouldFormat].
  destruct (negb (is_nan numeric0)); [|apply withoutScale_is_tuple].
  destruct (localsAtLine91 _ _ _ _) as [[[text numeric] prefix] suffix].
  destruct (truthyString text); [|apply withoutScale_is_tuple].
  apply spread_is_tuple; [apply Hscale|apply displayValue_is_tuple].
Qed.

Lemma toStringProcessor_is_tuple value h :
  isDisplayValueTuple (toStringProcessor value h).1.
Proof.
  unfold toStringProcessor, isDisplayValueTuple, isOptionalString; simpl.
  repeat split; try (eexists; by simplify_map_eq); left; by simplify_map_eq.
Qed.

(** C2. Whatever the raw value, the processor returned by
    [getDisplayProcessor] and the fallback [toStringProcessor] return a
    display value whose [text] is a string and whose [numeric] is a number,
    [prefix] and [suffix] being absent, [undefined] or strings; the scale
    calculator is taken to return an object without these four properties. *)
Theorem display_value_is_tuple options h0 value h :
  (forall f h theme n k,
     k ∈ tupleKeys -> getScaleCalculator f h theme n !! k = None) ->
  isDisplayValueTuple ((getDisplayProcessor options h0).1 value h).1 /\
  isDisplayValueTuple (toStringProcessor value h).1.
Proof.
  intros Hscale. split; [|apply toStringProcessor_is_tuple].
  unfold getDisplayProcessor.
  destruct options as [o|]; [|apply toStringProcessor_is_tuple].
  destruct (lodash_isEmpty o); [apply toStringProcessor_is_tuple|].
  destruct (field o) as [f|]; [|apply toStringProcessor_is_tuple].
  unfold processorEnv.
  destruct (match field_type f with Some FieldType_time => _ | _ => _ end)
    as [config h1].
  simpl. apply processValue_is_tuple. intros n k. apply Hscale.
Qed.

Lemma processorEnv_config f theme h0 :
  match field_config f with
  | Some l => (processorEnv f theme h0).1.1.1 = SharedConfig l
  | None => exists c, (processorEnv f theme h0).1.1.1 = FreshConfig c
  end.
Proof.
  unfold processorEnv.
  destruct (field_config f) as [l|], (field_type f) as [[|name]|];
    cbn [readConfig]; try reflexivity; try (eexists; reflexivity).
  destruct (config_unit (default emptyConfig (h0 !! l))) as [u|];
    [|reflexivity].
  destruct (truthyString u && timeFormats_truthy u); [reflexivity|].
  destruct (truthyString u && startsWith_time u); reflexivity.
Qed.

(** The numeric value of the display value: the number of the matched
    mapping's text when there is one, the conversion of the input
    otherwise. *)
Definition displayNumeric (config : FieldConfig) (value : JsValue) : number :=
  match matchedMapping config value with
  | Some mappedValue =>
      let v := toNumber (JsStr (mapping_text mappedValue)) in
      if is_nan v then toNumber value else v
  | None => toNumber value
  end.

Lemma mappedLocals_numeric config value :
  (mappedLocals config value).1.2 = displayNumeric config value.
Proof.
  unfold mappedLocals, displayNumeric.
  destruct (matchedMapping config value); reflexivity.
Qed.

Lemma displayNumeric_not_nan config value :
  is_nan (toNumber value) = false -> is_nan (displayNumeric config value) = false.
Proof.
  intros Hv. unfold displayNumeric.
  destruct (matchedMapping config value) as [m|]; [|exact Hv].
  cbn zeta. destruct (is_nan (toNumber (JsStr (mapping_text m)))) eqn:E;
    [exact Hv|exact E].
Qed.

Lemma localsAtLine91_numeric config formatFunc isUtc value :
  (localsAtLine91 config formatFunc isUtc value).1.1.2 = displayNumeric config value.
Proof.
  rewrite <- mappedLocals_numeric. unfold localsAtLine91.
  destruct (mappedLocals config value) as [[text numeric] shouldFormat].
  destruct (shouldFormat && negb (lodash_isBoolean value)); [|reflexivity].
  destruct (formattedLocals _ _ _ _ _) as [[text' prefix] suffix]. reflexivity.
Qed.

(** C1, as stated: the scale information of the input's own conversion to
    number is part of the display value. *)
Definition scaled_by_input_number (options : DisplayProcessorOptions) (f : Field)
    (h0 : Heap) (value : JsValue) (h : Heap) : Prop :=
  getScaleCalculator f (processorEnv f (theme options) h0).2 (theme options)
    (toNumber value)
  ⊆ ((getDisplayProcessor (Some options) h0).1 value h).1.

(** C1, amended. When the input converts to a number and the text reached
    at the test of line 91 is not empty, the display value is the tuple
    extended with the scale information of its own [numeric]; that number is
    not NaN, it is the number of the matched mapping's text when a mapping
    matches the input and its text converts to a number, and the conversion
    of the input otherwise. *)
Theorem scale_of_display_numeric options f h0 value h
    config formatFunc scaleFunc h1 text numeric prefix suffix :
  field options = Some f ->
  processorEnv f (theme options) h0 = (config, formatFunc, scaleFunc, h1) ->
  localsAtLine91 (readConfig h config) formatFunc (isUtc options) value =
    (text, numeric, prefix, suffix) ->
  is_nan (toNumber value) = false ->
  text <> "" ->
  let r := ((getDisplayProcessor (Some options) h0).1 value h).1 in
  r = spread (displayValue text numeric prefix suffix) (scaleFunc numeric) /\
  scaleFunc numeric ⊆ r /\
  scaleFunc = getScaleCalculator f h1 (theme options) /\
  is_nan numeric = false /\
  numeric = displayNumeric (readConfig h config) value.
Proof.
  intros Hf Henv Hlocals Hnum Htext r.
  assert (Hn : numeric = displayNumeric (readConfig h config) value).
  { rewrite <- (localsAtLine91_numeric _ formatFunc (isUtc options)), Hlocals.
    reflexivity. }
  assert (Hr : r = spread (displayValue text numeric prefix suffix) (scaleFunc numeric)).
  { subst r. rewrite (getDisplayProcessor_with_field _ _ _ Hf), Henv. simpl.
    unfold processValue.
    pose proof (mappedLocals_numeric (readConfig h config) value) as Hm.
    destruct (mappedLocals (readConfig h config) value) as [[text0 numeric0] sf].
    simpl in Hm. rewrite Hm, (displayNumeric_not_nan _ _ Hnum). simpl.
    rewrite Hlocals. apply truthyString_true in Htext. rewrite Htext.
    reflexivity. }
  split; [exact Hr|]. split; [rewrite Hr; apply map_union_subseteq_l|].
  split.
  { unfold processorEnv in Henv.
    destruct (match field_type f with Some FieldType_time => _ | _ => _ end)
      as [config' h'].
    injection Henv as _ _ <- <-. reflexivity. }
  split; [|exact Hn]. rewrite Hn. apply displayNumeric_not_nan, Hnum.
Qed.

Lemma timeFormats_own (u : string) (b : bool) :
  timeFormats !! u = Some b -> u ∈ recognizedTimeFormats.
Proof.
  unfold timeFormats, recognizedTimeFormats. intros Hu.
  destruct (decide (u = "dateTimeAsIso")) as [->|]; [set_solver|].
  destruct (decide (u = "dateTimeAsUS")) as [->|]; [set_solver|].
  destruct (decide (u = "dateTimeFromNow")) as [->|]; [set_solver|].
  by simplify_map_eq.
Qed.

Lemma timeFormats_truthy_false (u : string) :
  u ∉ recognizedTimeFormats -> u ∉ Object_prototype_keys ->
  timeFormats_truthy u = false.
Proof.
  intros Hrec Hproto. unfold timeFormats_truthy.
  destruct (timeFormats !! u) as [b|] eqn:E.
  - exfalso. eauto using timeFormats_own.
  - apply bool_decide_eq_false_2, Hproto.
Qed.

(** C9, as stated: after the call the caller's field has a configuration
    whose unit is ['time:'] followed by the default format. *)
Definition caller_unit_overwritten (options : DisplayProcessorOptions) (f : Field)
    (h : Heap) : Prop :=
  exists l c',
    field_config f = Some l /\
    (getDisplayProcessor (Some options) h).2 !! l = Some c' /\
    config_unit c' = Some ("time:" ++ DEFAULT_DATE_TIME_FORMAT)%string.

(** C9, amended. When the field carries a configuration object, its type is
    time and its unit is neither listed in [timeFormats], nor a string that
    starts with ['time:'], nor the name of a property inherited from
    [Object.prototype], the call overwrites the unit of that object with
    ['time:'] followed by the default format and changes nothing else: the
    other properties of the object and every other object are as before.
    For a field that is not a time field, and for a field without a
    configuration object, the heap of the caller is unchanged. *)
Theorem getDisplayProcessor_unit_frame options f h :
  field options = Some f ->
  let h' := (getDisplayProcessor (Some options) h).2 in
  (forall l c,
     field_config f = Some l -> h !! l = Some c ->
     field_type f = Some FieldType_time ->
     (forall u, config_unit c = Some u ->
        (u ∉ recognizedTimeFormats) /\ startsWith_time u = false /\
        (u ∉ Object_prototype_keys)) ->
     (exists c',
        h' !! l = Some c' /\
        config_unit c' = Some ("time:" ++ DEFAULT_DATE_TIME_FORMAT)%string /\
        config_decimals c' = config_decimals c /\
        config_mappings c' = config_mappings c /\
        config_noValue c' = config_noValue c /\
        config_rest c' = config_rest c) /\
     (forall l', l' <> l -> h' !! l' = h !! l')) /\
  (field_type f <> Some FieldType_time -> h' = h) /\
  (field_config f = None -> h' = h).
Proof.
  intros Hf h'. subst h'. rewrite (getDisplayProcessor_with_field _ _ _ Hf).
  cbn zeta. cbn [snd].
  split; [|split].
  - intros l c Hl Hc Htime Hunit. unfold processorEnv. rewrite Hl, Htime.
    cbn [readConfig]. rewrite Hc. cbn [default from_option].
    assert (Hassign :
      (let '(config, h1) :=
         match config_unit c with
         | Some u =>
             if truthyString u && timeFormats_truthy u then (SharedConfig l, h)
             else if truthyString u && startsWith_time u then (SharedConfig l, h)
             else assignUnit ("time:" ++ DEFAULT_DATE_TIME_FORMAT)%string (SharedConfig l) h
         | None => assignUnit ("time:" ++ DEFAULT_DATE_TIME_FORMAT)%string (SharedConfig l) h
         end in (config, h1)) =
      (SharedConfig l, <[l := setUnit ("time:" ++ DEFAULT_DATE_TIME_FORMAT)%string c]> h)).
    { destruct (config_unit c) as [u|] eqn:Eu.
      - destruct (Hunit u eq_refl) as (Hrec & Hpre & Hproto).
        rewrite (timeFormats_truthy_false u Hrec Hproto), Hpre, !andb_false_r.
        cbn [assignUnit readConfig]. rewrite Hc. reflexivity.
      - cbn [assignUnit readConfig]. rewrite Hc. reflexivity. }
    destruct (match config_unit c with Some _ => _ | None => _ end)
      as [config' h1].
    injection Hassign as -> ->. cbn [snd].
    split.
    + exists (setUnit ("time:" ++ DEFAULT_DATE_TIME_FORMAT)%string c).
      rewrite lookup_insert_eq. repeat split.
    + intros l' Hne. rewrite lookup_insert_ne; [reflexivity|congruence].
  - intros Hty. unfold processorEnv.
    destruct (field_type f) as [[|name]|]; [congruence| |]; reflexivity.
  - intros Hnone. unfold processorEnv. rewrite Hnone.
    destruct (field_type f) as [[|name]|]; reflexivity.
Qed.

End ProcessorFacts.

(** * The gauge: thresholds and drawing *)

Section GaugeFacts.
Context `{Gauge.GrafanaUi} `{Gauge.Flot}.
Import Gauge.

Lemma sequenceResults_imap_ok {A B} (f : nat -> A -> Result B) (g : nat -> A -> B)
    (l : list A) :
  (forall i x, l !! i = Some x -> f i x = Ok (g i x)) ->
  sequenceResults (imap f l) = Ok (imap g l).
Proof.
  revert f g. induction l as [|x l IH]; intros f g Hf; [reflexivity|].
  cbn [imap sequenceResults]. rewrite (Hf 0%nat x eq_refl). cbn [bindResult].
  rewrite (IH (f ∘ S) (g ∘ S)); [reflexivity|].
  intros i y Hi. apply (Hf (S i)), Hi.
Qed.

Lemma arrayIndex_previous {A} (l : list A) (index : nat) :
  (0 < index)%nat -> arrayIndex l (Z.of_nat index - 1) = l !! (index - 1)%nat.
Proof.
  intros Hpos. unfold arrayIndex.
  destruct (Z.ltb_spec (Z.of_nat index - 1) 0) as [Hlt|Hge]; [lia|].
  f_equal. lia.
Qed.

Lemma arrayIndex_last {A} (l : list A) :
  arrayIndex l (Z.of_nat (length l) - 1) = last l.
Proof.
  destruct l as [|x l]; [reflexivity|].
  rewrite arrayIndex_previous by (simpl; lia). rewrite last_lookup.
  f_equal. simpl. lia.
Qed.

(** The color of a breakpoint: the threshold's color resolved for the
    theme. *)
Definition resolvedColor (props : Props) (t : Threshold) : string :=
  getColorFromHexRgbOrName (threshold_color t) (theme_type (theme props)).

(** What the [map] callback returns at [index] when it does not throw. *)
Definition formattedAt (props : Props) (index : nat) (t : Threshold) : Breakpoint :=
  if (index =? 0)%nat then
    {| breakpoint_value := minValue props; breakpoint_color := resolvedColor props t |}
  else
    {| breakpoint_value := threshold_value t;
       breakpoint_color :=
         resolvedColor props
           (default t (thresholds (scale props) !! (index - 1)%nat)) |}.

Lemma getFormattedThresholds_ok (props : Props) (lastThreshold : Threshold) :
  last (thresholds (scale props)) = Some lastThreshold ->
  getFormattedThresholds props =
    Ok (imap (formattedAt props) (thresholds (scale props)) ++
        [ {| breakpoint_value := maxValue props;
             breakpoint_color := resolvedColor props lastThreshold |} ]).
Proof.
  intros Hlast. unfold getFormattedThresholds.
  rewrite arrayIndex_last, Hlast.
  rewrite (sequenceResults_imap_ok _ (formattedAt props)); [reflexivity|].
  intros i t Hi. unfold formattedAt.
  destruct (Nat.eqb_spec i 0) as [->|Hne]; [reflexivity|].
  rewrite arrayIndex_previous by lia.
  assert (Hlt : (i - 1 < length (thresholds (scale props)))%nat).
  { apply lookup_lt_Some in Hi. lia. }
  destruct (lookup_lt_is_Some_2 _ _ Hlt) as [prev Hprev].
  rewrite Hprev. reflexivity.
Qed.

Lemma getFormattedThresholds_empty (props : Props) :
  thresholds (scale props) = [] ->
  getFormattedThresholds props =
    Throw (TypeError "Cannot read property 'color' of undefined").
Proof. intros Hnil. unfold getFormattedThresholds. rewrite Hnil. reflexivity. Qed.

(** C4. On a non-empty threshold list [getFormattedThresholds] returns
    [thresholds.length + 1] breakpoints: the first has [minValue] and the
    color of the first threshold, entry [i] with [0 < i < length] has the
    value of threshold [i] and the color of threshold [i - 1], and the last
    has [maxValue] and the color of the last threshold (colors resolved by
    [getColorFromHexRgbOrName] for the theme). *)
Theorem getFormattedThresholds_breakpoints (props : Props) :
  thresholds (scale props) <> [] ->
  exists result,
    getFormattedThresholds props = Ok result /\
    length result = S (length (thresholds (scale props))) /\
    (forall first,
       thresholds (scale props) !! 0%nat = Some first ->
       result !! 0%nat =
         Some {| breakpoint_value := minValue props;
                 breakpoint_color := resolvedColor props first |}) /\
    (forall i t previous,
       (0 < i)%nat ->
       thresholds (scale props) !! i = Some t ->
       thresholds (scale props) !! (i - 1)%nat = Some previous ->
       result !! i =
         Some {| breakpoint_value := threshold_value t;
                 breakpoint_color := resolvedColor props previous |}) /\
    (forall lastThreshold,
       last (thresholds (scale props)) = Some lastThreshold ->
       result !! length (thresholds (scale props)) =
         Some {| breakpoint_value := maxValue props;
                 breakpoint_color := resolvedColor props lastThreshold |}).
Proof.
  intros Hne.
  destruct (last (thresholds (scale props))) as [lt|] eqn:Hlast;
    [|apply last_None in Hlast; contradiction].
  eexists. split; [apply (getFormattedThresholds_ok props lt Hlast)|].
  split; [rewrite length_app, length_imap; simpl; lia|].
  split; [|split].
  - intros first Hfirst. rewrite lookup_app_l.
    + rewrite list_lookup_imap, Hfirst. reflexivity.
    + rewrite length_imap. apply lookup_lt_Some in Hfirst. exact Hfirst.
  - intros i t previous Hpos Hi Hprev. rewrite lookup_app_l.
    + rewrite list_lookup_imap, Hi. cbn [fmap option_fmap option_map].
      unfold formattedAt. destruct (Nat.eqb_spec i 0) as [->|_]; [lia|].
      rewrite Hprev. reflexivity.
    + rewrite length_imap. apply lookup_lt_Some in Hi. exact Hi.
  - intros lt' [= <-]. rewrite lookup_app_r; rewrite length_imap; [|lia].
    rewrite Nat.sub_diag. reflexivity.
Qed.


(** C8. [getFormattedThresholds] throws exactly on an empty threshold list.
    With the default scale, whose threshold list is empty, it reads the
    color of an undefined last threshold and throws; [draw] evaluates it
    while it builds the options, before the [try] block, so [draw] throws
    the same exception, without a call of [$.plot] and without a log
    entry. *)
Theorem default_scale_makes_draw_throw (g : GivenProps) (canvas : CanvasElement)
    (w : World) :
  given_scale g = None ->
  thresholds (scale (withDefaultProps g)) = [] /\
  getFormattedThresholds (withDefaultProps g) =
    Throw (TypeError "Cannot read property 'color' of undefined") /\
  draw {| props := withDefaultProps g; canvasElement := canvas |} w =
    (Throw (TypeError "Cannot read property 'color' of undefined"), w) /\
  (forall props : Props,
     (exists e, getFormattedThresholds props = Throw e) <->
     thresholds (scale props) = []).
Proof.
  intros Hscale.
  assert (Hnil : thresholds (scale (withDefaultProps g)) = []).
  { unfold withDefaultProps. cbn [scale]. rewrite Hscale. reflexivity. }
  split; [exact Hnil|].
  pose proof (getFormattedThresholds_empty _ Hnil) as Hthrow.
  split; [exact Hthrow|].
  split; [unfold draw; cbn [props]; rewrite Hthrow; reflexivity|].
  intros props'. split.
  - intros [e He].
    destruct (last (thresholds (scale props'))) as [lt|] eqn:Hlast;
      [|apply last_None, Hlast].
    rewrite (getFormattedThresholds_ok props' lt Hlast) in He. discriminate He.
  - intros Hempty. eexists. apply getFormattedThresholds_empty, Hempty.
Qed.

End GaugeFacts.

(** * The raw InfluxQL editor: what the handlers emit *)

Section EditorFacts.
Import RawInfluxQLEditor.

(** C10. The select handler emits the input query with [resultFormat]
    replaced and runs the query; the blur handler emits the input query with
    [query] and [alias] replaced by the text being edited and runs the
    query; every other property of the query object is as in the input. *)
Theorem editor_preserves_other_fields (query : JsObject) (st : State)
    (e : SelectableValue) :
  (exists q,
     selectOnChange query e = [onChange q; onRunQuery] /\
     q !! "resultFormat" = Some (value e) /\
     (forall k : string, k <> "resultFormat" -> q !! k = query !! k)) /\
  (exists q,
     applyDelayedChangesAndRunQuery query st = [onChange q; onRunQuery] /\
     q !! "query" = Some (currentQuery st) /\
     q !! "alias" = Some (currentAlias st) /\
     (forall k : string, k <> "query" -> k <> "alias" -> q !! k = query !! k)).
Proof.
  split; eexists; (split; [reflexivity|]); unfold spread.
  - split.
    + apply lookup_union_Some_l. by simplify_map_eq.
    + intros k Hk. apply lookup_union_r. by simplify_map_eq.
  - split; [|split].
    + apply lookup_union_Some_l. by simplify_map_eq.
    + apply lookup_union_Some_l. by simplify_map_eq.
    + intros k Hq Ha. apply lookup_union_r. by simplify_map_eq.
Qed.

End EditorFacts.

(** * The theorems at concrete inputs *)

Section Examples.
#[local] Existing Instances Sample.runtime Sample.lodash Sample.data Sample.ui
  Sample.flot.

Lemma sample_log_defined_on_positive : Math_log_defined_on_positive.
Proof.
  intros x Hpos Hfin. cbn [Math_log Sample.runtime]. unfold Sample.log.
  rewrite Hpos, Hfin. cbn [andb].
  destruct (FloatOps.Z.frexp x) as [m e].
  match goal with |- is_nan (if is_nan ?r then _ else _) = false =>
    destruct (is_nan r) eqn:E; [reflexivity|exact E] end.
Qed.

Lemma sample_scale_has_no_tuple_key (f : Field) (h : Heap)
    (theme : option GrafanaTheme) (n : number) (k : string) :
  k ∈ tupleKeys -> getScaleCalculator f h theme n !! k = None.
Proof.
  intros Hk. apply list_elem_of_In in Hk. simpl in Hk.
  destruct Hk as [<-|[<-|[<-|[<-|[]]]]]; reflexivity.
Qed.

(** The heap in which object 1 is the configuration with the mapping
    [10 -> "5"]. *)
Definition heapWithMapping : Heap := {[ 1%positive := Sample.configWithMapping ]}.

(** A configuration whose unit is not a time format. *)
Definition configShort : FieldConfig :=
  {| config_unit := Some "short"; config_decimals := DecimalNumber 2%float;
     config_mappings := None; config_noValue := Some "-";
     config_rest := {[ "min" := JsNum 0%float ]} |}.

(** C1: the value 10 is mapped to the text "5"; the display value carries the
    color of 5 and its [numeric] is 5. *)
Lemma scale_of_display_numeric_at_mapped_value :
  let r :=
    ((getDisplayProcessor (Some (Sample.optionsOf Sample.numberField))
        heapWithMapping).1 (JsNum 10%float) heapWithMapping).1 in
  r = spread (displayValue "5" 5%float None None)
        (Sample.scaleCalculator Sample.numberField heapWithMapping None 5%float) /\
  Sample.scaleCalculator Sample.numberField heapWithMapping None 5%float ⊆ r /\
  Sample.scaleCalculator Sample.numberField heapWithMapping None =
    getScaleCalculator Sample.numberField heapWithMapping None /\
  is_nan 5%float = false /\
  5%float = displayNumeric (readConfig heapWithMapping (SharedConfig 1%positive))
              (JsNum 10%float).
Proof.
  apply (scale_of_display_numeric (Sample.optionsOf Sample.numberField)
           Sample.numberField heapWithMapping (JsNum 10%float) heapWithMapping
           (SharedConfig 1%positive) (Sample.valueFormat "none")
           (Sample.scaleCalculator Sample.numberField heapWithMapping None)
           heapWithMapping "5" 5%float None None);
    [reflexivity | reflexivity | vm_compute; reflexivity | reflexivity
    | discriminate].
Defined.

(** C1: for the value 10 mapped to "5", the input converts to a number and
    the text "5" is not empty, and the scale information of 10 (red) is not
    what the display value carries (green, the color of 5). *)
Lemma mapped_value_is_scaled_by_mapped_number :
  is_nan (toNumber (JsNum 10%float)) = false /\
  (localsAtLine91 (readConfig heapWithMapping (SharedConfig 1%positive))
     (Sample.valueFormat "none") None (JsNum 10%float)).1.1.1 = "5" /\
  ((getDisplayProcessor (Some (Sample.optionsOf Sample.numberField))
      heapWithMapping).1 (JsNum 10%float) heapWithMapping).1 !! "color" =
    Some (JsStr "green") /\
  ~ scaled_by_input_number (Sample.optionsOf Sample.numberField)
      Sample.numberField heapWithMapping (JsNum 10%float) heapWithMapping.
Proof.
  split; [reflexivity|]. split; [vm_compute; reflexivity|].
  split; [vm_compute; reflexivity|].
  unfold scaled_by_input_number. intros Hsub.
  rewrite map_subseteq_spec in Hsub.
  specialize (Hsub "color" (JsStr "red") ltac:(vm_compute; reflexivity)).
  vm_compute in Hsub. discriminate Hsub.
Qed.

(** C2: the tuple of the value 10 under the sample interfaces. *)
Lemma display_value_is_tuple_at_ten :
  isDisplayValueTuple
    ((getDisplayProcessor (Some (Sample.optionsOf Sample.numberField))
        heapWithMapping).1 (JsNum 10%float) heapWithMapping).1 /\
  isDisplayValueTuple (toStringProcessor (JsNum 10%float) heapWithMapping).1.
Proof.
  apply (display_value_is_tuple (Some (Sample.optionsOf Sample.numberField))
           heapWithMapping (JsNum 10%float) heapWithMapping).
  exact sample_scale_has_no_tuple_key.
Defined.

(** C3: 0.5 gets two decimals and the integer 7 gets none. *)
Lemma getDecimalsForValue_rounding_at_half_and_seven :
  (exists d : number,
     decimals (getDecimalsForValue 0.5%float DecimalUndefined) = DecimalNumber d /\
     (0 <=? d)%float = true /\
     ((js_rem 0.5 1 =? 0)%float = true -> d = 0%float)) /\
  (exists d : number,
     decimals (getDecimalsForValue 7%float DecimalNull) = DecimalNumber d /\
     (0 <=? d)%float = true /\
     ((js_rem 7 1 =? 0)%float = true -> d = 0%float)) /\
  getDecimalsForValue 7%float (DecimalNumber 3%float) =
    {| decimals := DecimalNumber 3%float; scaledDecimals := DecimalNull |}.
Proof.
  split; [|split].
  - apply (proj2 (getDecimalsForValue_rounding 0.5%float DecimalUndefined));
      [exact sample_log_defined_on_positive | reflexivity | reflexivity | reflexivity].
  - apply (proj2 (getDecimalsForValue_rounding 7%float DecimalNull));
      [exact sample_log_defined_on_positive | reflexivity | reflexivity | reflexivity].
  - apply (proj1 (getDecimalsForValue_rounding 7%float (DecimalNumber 3%float))).
    reflexivity.
Defined.

(** C4: the three breakpoints of two thresholds. *)
Lemma getFormattedThresholds_breakpoints_at_two :
  exists result,
    Gauge.getFormattedThresholds (Sample.gaugeProps 300%float Sample.twoThresholds) =
      Ok result /\
    length result = 3%nat /\
    (forall first,
       Sample.twoThresholds !! 0%nat = Some first ->
       result !! 0%nat =
         Some {| Gauge.breakpoint_value := 0%float;
                 Gauge.breakpoint_color := threshold_color first |}) /\
    (forall i t previous,
       (0 < i)%nat ->
       Sample.twoThresholds !! i = Some t ->
       Sample.twoThresholds !! (i - 1)%nat = Some previous ->
       result !! i =
         Some {| Gauge.breakpoint_value := threshold_value t;
                 Gauge.breakpoint_color := threshold_color previous |}) /\
    (forall lastThreshold,
       last Sample.twoThresholds = Some lastThreshold ->
       result !! 2%nat =
         Some {| Gauge.breakpoint_value := 100%float;
                 Gauge.breakpoint_color := threshold_color lastThreshold |}).
Proof.
  exact (getFormattedThresholds_breakpoints
           (Sample.gaugeProps 300%float Sample.twoThresholds)
           ltac:(discriminate)).
Defined.

Definition sampleCanvas : @Gauge.CanvasElement Sample.flot := tt.


Definition emptyWorld : Gauge.World := {| Gauge.dom := 0%nat; Gauge.console := [] |}.



(** The props of a gauge whose parent passes no scale. *)
Definition givenWithoutScale : Gauge.GivenProps :=
  {| Gauge.given_height := 200%float; Gauge.given_maxValue := None;
     Gauge.given_minValue := None; Gauge.given_scale := None;
     Gauge.given_showThresholdMarkers := None;
     Gauge.given_showThresholdLabels := None;
     Gauge.given_width := 300%float;
     Gauge.given_value := displayValue "42" 42%float None None;
     Gauge.given_theme := Sample.darkTheme |}.

(** C8: without a scale prop, [draw] throws and the world is untouched. *)
Lemma default_scale_makes_draw_throw_at_sample :
  Gauge.thresholds (Gauge.scale (Gauge.withDefaultProps givenWithoutScale)) = [] /\
  Gauge.getFormattedThresholds (Gauge.withDefaultProps givenWithoutScale) =
    Throw (TypeError "Cannot read property 'color' of undefined") /\
  Gauge.draw {| Gauge.props := Gauge.withDefaultProps givenWithoutScale;
                Gauge.canvasElement := sampleCanvas |} emptyWorld =
    (Throw (TypeError "Cannot read property 'color' of undefined"), emptyWorld) /\
  (forall props : Gauge.Props,
     (exists e, Gauge.getFormattedThresholds props = Throw e) <->
     Gauge.thresholds (Gauge.scale props) = []).
Proof.
  apply (default_scale_makes_draw_throw givenWithoutScale sampleCanvas emptyWorld).
  reflexivity.
Defined.

Lemma short_is_no_time_unit (u : string) :
  config_unit configShort = Some u ->
  (u ∉ recognizedTimeFormats) /\ startsWith_time u = false /\
  (u ∉ Object_prototype_keys).
Proof.
  intros [= <-]. repeat split; try reflexivity.
  all: intros Hin; apply list_elem_of_In in Hin; simpl in Hin;
    intuition discriminate.
Qed.

(** C9: the unit "short" of a time field is overwritten in the caller's
    object, whose other properties stay, and no other object changes. *)
Lemma getDisplayProcessor_unit_frame_at_short :
  (exists c',
     (getDisplayProcessor (Some (Sample.optionsOf Sample.timeField))
        {[ 1%positive := configShort ]}).2 !! 1%positive = Some c' /\
     config_unit c' = Some "time:YYYY-MM-DD HH:mm:ss" /\
     config_decimals c' = DecimalNumber 2%float /\
     config_mappings c' = None /\
     config_noValue c' = Some "-" /\
     config_rest c' = {[ "min" := JsNum 0%float ]}) /\
  (forall l', l' <> 1%positive ->
     (getDisplayProcessor (Some (Sample.optionsOf Sample.timeField))
        {[ 1%positive := configShort ]}).2 !! l' =
     ({[ 1%positive := configShort ]} : Heap) !! l').
Proof.
  assert (Hc : ({[ 1%positive := configShort ]} : Heap) !! 1%positive =
               Some configShort) by apply lookup_singleton_eq.
  exact (proj1 (getDisplayProcessor_unit_frame
                  (Sample.optionsOf Sample.timeField) Sample.timeField
                  {[ 1%positive := configShort ]} eq_refl)
           1%positive configShort eq_refl Hc eq_refl short_is_no_time_unit).
Defined.

(** C9: a time field without a configuration object.  The field is a time
    field and [config.unit] is undefined,
    yet the caller's field has no configuration whose unit was written. *)
Lemma bare_time_field_is_not_overwritten :
  field_type Sample.bareTimeField = Some FieldType_time /\
  config_unit (readConfig ∅ (FreshConfig emptyConfig)) = None /\
  (getDisplayProcessor (Some (Sample.optionsOf Sample.bareTimeField)) ∅).2 = ∅ /\
  ~ caller_unit_overwritten (Sample.optionsOf Sample.bareTimeField)
      Sample.bareTimeField ∅.
Proof.
  split; [reflexivity|]. split; [reflexivity|]. split; [reflexivity|].
  intros (l & c' & Hl & _). discriminate Hl.
Qed.

(** A query with a property that the editor does not handle. *)
Definition sampleQuery : JsObject :=
  {[ "refId" := JsStr "A"; "query" := JsStr "SELECT 1"; "alias" := JsStr "one";
     "resultFormat" := JsStr "table" ]}.

Definition editedState : RawInfluxQLEditor.State :=
  {| RawInfluxQLEditor.currentQuery := JsStr "SELECT 2";
     RawInfluxQLEditor.currentAlias := JsUndefined |}.

(** C10: [refId] survives both handlers. *)
Lemma editor_preserves_other_fields_at_sample :
  (exists q,
     RawInfluxQLEditor.selectOnChange sampleQuery
       {| RawInfluxQLEditor.label := Some "Logs";
          RawInfluxQLEditor.value := JsStr "logs" |} =
       [RawInfluxQLEditor.onChange q; RawInfluxQLEditor.onRunQuery] /\
     q !! "resultFormat" = Some (JsStr "logs") /\
     q !! "refId" = Some (JsStr "A") /\
     q !! "query" = Some (JsStr "SELECT 1")) /\
  (exists q,
     RawInfluxQLEditor.applyDelayedChangesAndRunQuery sampleQuery editedState =
       [RawInfluxQLEditor.onChange q; RawInfluxQLEditor.onRunQuery] /\
     q !! "query" = Some (JsStr "SELECT 2") /\
     q !! "alias" = Some JsUndefined /\
     q !! "refId" = Some (JsStr "A") /\
     q !! "resultFormat" = Some (JsStr "table")).
Proof.
  destruct (editor_preserves_other_fields sampleQuery editedState
              {| RawInfluxQLEditor.label := Some "Logs";
                 RawInfluxQLEditor.value := JsStr "logs" |})
    as [(q1 & Hq1 & Hformat & Hrest1) (q2 & Hq2 & Hquery & Halias & Hrest2)].
  split.
  - exists q1. split; [exact Hq1|]. split; [exact Hformat|].
    rewrite !Hrest1 by discriminate. split; reflexivity.
  - exists q2. split; [exact Hq2|]. split; [exact Hquery|]. split; [exact Halias|].
    rewrite !Hrest2 by discriminate. split; reflexivity.
Defined.

End Examples.

(** * Further facts about binary64 comparisons *)

Section CompareFacts.

Lemma SFcompare_swap (x y : spec_float) :
  SFcompare y x =
    match SFcompare x y with Some c => Some (CompOpp c) | None => None end.
Proof.
  destruct x as [[]|[]| |[] m1 e1], y as [[]|[]| |[] m2 e2]; try reflexivity.
  all: simpl; rewrite (Z.compare_antisym e1 e2).
  all: destruct (e1 ?= e2)%Z; simpl; try reflexivity.
  all: pose proof (Pos.compare_cont_antisym m1 m2 Eq) as Hanti;
    cbn [CompOpp] in Hanti; rewrite <- Hanti.
  all: destruct (Pos.compare_cont Eq m1 m2); reflexivity.
Qed.

Lemma SFcompare_refl (x : spec_float) :
  sf_is_nan x = false -> SFcompare x x = Some Eq.
Proof.
  destruct x as [[]|[]| |[] m e]; try reflexivity; try discriminate.
  all: intros _; simpl; rewrite Z.compare_refl, Pos.compare_cont_refl;
    reflexivity.
Qed.

Lemma SFcompare_defined (x y : spec_float) :
  sf_is_nan x = false -> sf_is_nan y = false -> exists c, SFcompare x y = Some c.
Proof.
  destruct x as [[]|[]| |[] m1 e1], y as [[]|[]| |[] m2 e2];
    try discriminate; intros _ _; simpl; eauto.
Qed.

Lemma leb_refl (x : float) : is_nan x = false -> (x <=? x)%float = true.
Proof.
  rewrite is_nan_Prim2SF, leb_spec. intros Hx. unfold SFleb.
  rewrite (SFcompare_refl _ Hx). reflexivity.
Qed.

Lemma ltb_leb (x y : float) : (x <? y)%float = true -> (x <=? y)%float = true.
Proof.
  rewrite ltb_spec, leb_spec. unfold SFltb, SFleb.
  destruct (SFcompare _ _) as [[]|]; congruence.
Qed.

(** For two numbers, [x < y] fails only when [y <= x]. *)
Lemma not_ltb_leb (x y : float) :
  is_nan x = false -> is_nan y = false ->
  (x <? y)%float = false -> (y <=? x)%float = true.
Proof.
  rewrite !is_nan_Prim2SF, ltb_spec, leb_spec. intros Hx Hy.
  unfold SFltb, SFleb. rewrite (SFcompare_swap (Prim2SF x) (Prim2SF y)).
  destruct (SFcompare_defined _ _ Hx Hy) as [c ->].
  destruct c; simpl; congruence.
Qed.

Lemma is_nan_eq (x : float) : is_nan x = true -> x = nan.
Proof.
  rewrite is_nan_Prim2SF. intros Hx. apply Prim2SF_inj.
  destruct (Prim2SF x); try discriminate. reflexivity.
Qed.

Lemma sub_nan_l (x : float) : (nan - x)%float = nan.
Proof. apply is_nan_eq. rewrite is_nan_Prim2SF, sub_spec. reflexivity. Qed.

Lemma div_nan_l (x : float) : (nan / x)%float = nan.
Proof. apply is_nan_eq. rewrite is_nan_Prim2SF, div_spec. reflexivity. Qed.

Lemma Math_min_operands (x y : number) :
  is_nan (Math_min x y) = false -> is_nan x = false /\ is_nan y = false.
Proof.
  unfold Math_min. destruct (is_nan x), (is_nan y); simpl; auto; discriminate.
Qed.

(** [Math.min] is below both arguments whenever it is a number. *)
Lemma Math_min_le (x y : number) :
  is_nan (Math_min x y) = false ->
  (Math_min x y <=? x)%float = true /\ (Math_min x y <=? y)%float = true.
Proof.
  intros Hmin. destruct (Math_min_operands x y Hmin) as [Hx Hy].
  unfold Math_min. rewrite Hx, Hy. simpl.
  destruct (x <? y)%float eqn:Hxy.
  { split; [apply leb_refl, Hx|apply ltb_leb, Hxy]. }
  destruct (y <? x)%float eqn:Hyx.
  { split; [apply ltb_leb, Hyx|apply leb_refl, Hy]. }
  destruct (get_sign x).
  - split; [apply leb_refl, Hx|apply not_ltb_leb; assumption].
  - split; [apply not_ltb_leb; assumption|apply leb_refl, Hy].
Qed.

End CompareFacts.

(** * More on [getDecimalsForValue] *)

Section DecimalsFacts.
Context `{JsRuntime}.

(** X1. Without a numeric override, a value with [value % 1 === 0] gets
    exactly 0 decimals, whatever its sign and whatever [Math.log] returns for
    it: zero and the negative integers included. *)
Theorem integral_value_gets_no_decimals (value : number)
    (decimalOverride : DecimalCount) :
  lodash_isNumber decimalOverride = false ->
  (js_rem value 1 =? 0)%float = true ->
  decimals (getDecimalsForValue value decimalOverride) = DecimalNumber 0%float.
Proof.
  intros Hover Hint. unfold getDecimalsForValue.
  destruct decimalOverride as [| |n]; [| |discriminate Hover].
  all: set (dec := (- Math_floor (Math_log value / Math_LN10) + 1)%float).
  all: set (norm := (value / Math_pow 10 (- dec))%float).
  all: rewrite Hint.
  all: destruct (norm <? 1.5)%float; [|destruct (norm <? 3)%float;
         [destruct (2.25 <? norm)%float|destruct (norm <? 7.5)%float]].
  all: reflexivity.
Qed.

(** [Math.log] of a negative number is NaN. *)
Definition Math_log_nan_on_negative : Prop :=
  forall x : number, (x <? 0)%float = true -> Math_log x = nan.

(** X2. Without a numeric override, a negative value that is not integral
    gets NaN for both [decimals] and [scaledDecimals]: the logarithm of the
    value is NaN and nothing on the way replaces it. *)
Theorem negative_fraction_gets_nan_decimals (value : number)
    (decimalOverride : DecimalCount) :
  Math_log_nan_on_negative ->
  lodash_isNumber decimalOverride = false ->
  (value <? 0)%float = true ->
  (js_rem value 1 =? 0)%float = false ->
  getDecimalsForValue value decimalOverride =
    {| decimals := DecimalNumber nan; scaledDecimals := DecimalNumber nan |}.
Proof.
  intros Hlog Hover Hneg Hfrac. unfold getDecimalsForValue.
  destruct decimalOverride as [| |n]; [| |discriminate Hover].
  all: rewrite (Hlog value Hneg), Hfrac.
  all: replace (- Math_floor (nan / Math_LN10) + 1)%float with nan
         by (vm_compute; reflexivity).
  all: set (norm := (value / Math_pow 10 (- nan))%float).
  all: destruct (norm <? 1.5)%float; [|destruct (norm <? 3)%float;
         [destruct (2.25 <? norm)%float|destruct (norm <? 7.5)%float]].
  all: replace (nan + 1)%float with nan by (vm_compute; reflexivity).
  all: replace (Math_max 0%float nan) with nan by (vm_compute; reflexivity).
  all: rewrite sub_nan_l.
  all: replace (nan + 2)%float with nan by (vm_compute; reflexivity).
  all: reflexivity.
Qed.

End DecimalsFacts.

(** * More on the gauge: font scale and automatic sizes *)

Section GaugeSizeFacts.
Import Gauge.

(** The sign of the font scale of a text of [n] characters. *)
Definition fontScaleSign (n : nat) : bool :=
  let s := getFontScale (number_of_nat n) in
  if (n <? 22)%nat then (0 <? s)%float
  else if (n =? 22)%nat then (s =? 0)%float && negb (get_sign s)
  else (s <? 0)%float.

Lemma fontScaleSign_checked : forallb fontScaleSign (seq 0 4001) = true.
Proof. vm_compute. reflexivity. Qed.

(** X3. For a text of up to 4000 characters [getFontScale] is positive
    below 22 characters, zero at 22 and negative above. *)
Theorem font_scale_sign (n : nat) :
  (n <= 4000)%nat ->
  let s := getFontScale (number_of_nat n) in
  ((n < 22)%nat -> (0 <? s)%float = true) /\
  (n = 22%nat -> (s =? 0)%float = true) /\
  ((22 < n)%nat -> (s <? 0)%float = true).
Proof.
  intros Hn s.
  assert (Hsign : fontScaleSign n = true).
  { pose proof fontScaleSign_checked as Hall.
    rewrite forallb_forall in Hall. apply Hall, in_seq. lia. }
  unfold fontScaleSign in Hsign. fold s in Hsign.
  destruct (Nat.ltb_spec n 22) as [Hlt|Hge].
  { repeat split; [intros _; exact Hsign | lia | lia]. }
  destruct (Nat.eqb_spec n 22) as [Heq|Hne].
  { apply andb_true_iff in Hsign as [Hzero _].
    repeat split; [lia | intros _; exact Hzero | lia]. }
  repeat split; [lia | lia | intros _; exact Hsign].
Qed.

(** X4. [calculateGaugeAutoProps] shows the label exactly when the title is
    neither [null] nor [undefined]; the title font size, when it is a
    number, is at most 20; the gauge height, when it is a number, is at most
    the width, and at most the height when no label is shown. *)
Theorem calculateGaugeAutoProps_bounds (width height : number) (title : JsValue) :
  let auto := calculateGaugeAutoProps width height title in
  (showLabel auto = false <-> title = JsNull \/ title = JsUndefined) /\
  (is_nan (titleFontSize auto) = false ->
   (titleFontSize auto <=? 20)%float = true) /\
  (is_nan (gaugeHeight auto) = false ->
   (gaugeHeight auto <=? width)%float = true) /\
  (showLabel auto = false -> is_nan (gaugeHeight auto) = false ->
   (gaugeHeight auto <=? height)%float = true).
Proof.
  unfold calculateGaugeAutoProps. cbn [showLabel titleFontSize gaugeHeight].
  split; [|split; [|split]].
  - destruct title; split; intros Ht; try discriminate Ht; auto;
      destruct Ht as [Ht|Ht]; discriminate Ht.
  - intros Hnum. apply (Math_min_le _ _ Hnum).
  - intros Hnum. apply (Math_min_le _ _ Hnum).
  - intros Hlabel Hnum. rewrite Hlabel in *. apply (Math_min_le _ _ Hnum).
Qed.

End GaugeSizeFacts.

(** * More on the display processor *)

(** [config.noValue] when it is a non-empty string, [''] otherwise. *)
Definition noValueText (config : FieldConfig) : string :=
  match config_noValue config with
  | Some noValue => if truthyString noValue then noValue else ""
  | None => ""
  end.

Section ProcessorPaths.
Context `{JsRuntime} `{Lodash} `{GrafanaData}.

(** The text before any formatting: the matched mapping's text, or
    [_.toString(value)]. *)
Definition unformattedText (config : FieldConfig) (value : JsValue) : string :=
  match matchedMapping config value with
  | Some mappedValue => mapping_text mappedValue
  | None => lodash_toString value
  end.

Lemma mappedLocals_text config value :
  (mappedLocals config value).1.1 = unformattedText config value.
Proof.
  unfold mappedLocals, unformattedText.
  destruct (matchedMapping config value); reflexivity.
Qed.

Lemma mappedLocals_shouldFormat config value :
  (mappedLocals config value).2 =
    match matchedMapping config value with Some _ => false | None => true end.
Proof.
  unfold mappedLocals. destruct (matchedMapping config value); reflexivity.
Qed.

Lemma withoutScale_eq config text numeric prefix suffix :
  withoutScale config text numeric prefix suffix =
    displayValue (if truthyString text then text else noValueText config)
      numeric prefix suffix.
Proof.
  unfold withoutScale, noValueText. destruct (truthyString text); reflexivity.
Qed.

(** X5. Without options, with empty options or without a field,
    [getDisplayProcessor] returns [toStringProcessor] and leaves the heap
    alone; the display value is then exactly
    [{ text: _.toString(value), numeric: toNumber(value) }]: these two
    properties and no other. *)
Theorem getDisplayProcessor_fallback (options : option DisplayProcessorOptions)
    (h0 : Heap) (value : JsValue) (h : Heap) :
  (forall o, options = Some o -> field o = None) ->
  let r := ((getDisplayProcessor options h0).1 value h).1 in
  getDisplayProcessor options h0 = (toStringProcessor, h0) /\
  ((getDisplayProcessor options h0).1 value h).2 = h /\
  r !! "text" = Some (JsStr (lodash_toString value)) /\
  r !! "numeric" = Some (JsNum (toNumber value)) /\
  (forall k : string, k <> "text" -> k <> "numeric" -> r !! k = None).
Proof.
  intros Hfield r.
  assert (Hfallback : getDisplayProcessor options h0 = (toStringProcessor, h0)).
  { unfold getDisplayProcessor. destruct options as [o|]; [|reflexivity].
    rewrite (Hfield o eq_refl). destruct (lodash_isEmpty o); reflexivity. }
  subst r. rewrite Hfallback. unfold toStringProcessor. cbn [fst snd].
  split; [reflexivity|]. split; [reflexivity|].
  split; [by simplify_map_eq|]. split; [by simplify_map_eq|].
  intros k Htext Hnumeric. by simplify_map_eq.
Qed.

(** X6. When the numeric value of the display value is NaN, the processor
    returns the plain tuple: the unformatted text, or [noValue] when that
    text is empty, with NaN, an undefined prefix and an undefined suffix.
    Neither the formatter nor the scale calculator contributes. *)
Theorem nan_value_is_neither_formatted_nor_scaled (config : FieldConfig)
    (formatFunc : ValueFormatter) (scaleFunc : number -> JsObject)
    (isUtc : option bool) (value : JsValue) :
  is_nan (displayNumeric config value) = true ->
  processValue config formatFunc scaleFunc isUtc value =
    displayValue
      (if truthyString (unformattedText config value)
       then unformattedText config value else noValueText config)
      (displayNumeric config value) None None.
Proof.
  intros Hnan. unfold processValue.
  pose proof (mappedLocals_numeric config value) as Hn.
  pose proof (mappedLocals_text config value) as Ht.
  destruct (mappedLocals config value) as [[text0 numeric0] shouldFormat].
  cbn [fst snd] in Hn, Ht. subst text0 numeric0. rewrite Hnan. cbn [negb].
  apply withoutScale_eq.
Qed.

(** X7. When a non-empty [noValue] is configured and the scale calculator
    brings no [text] of its own, the text of the display value is never
    empty. *)
Theorem text_is_never_empty_with_noValue (config : FieldConfig)
    (formatFunc : ValueFormatter) (scaleFunc : number -> JsObject)
    (isUtc : option bool) (value : JsValue) (noValue : string) :
  config_noValue config = Some noValue ->
  noValue <> "" ->
  (forall n, scaleFunc n !! "text" = None) ->
  exists text,
    processValue config formatFunc scaleFunc isUtc value !! "text" =
      Some (JsStr text) /\
    text <> "".
Proof.
  intros Hconfig Hnonempty Hscale.
  assert (Hfallback : forall text numeric prefix suffix,
    exists text',
      withoutScale config text numeric prefix suffix !! "text" =
        Some (JsStr text') /\ text' <> "").
  { intros text numeric prefix suffix. rewrite withoutScale_eq.
    eexists. split; [apply displayValue_lookup|].
    destruct (truthyString text) eqn:Et; [apply truthyString_true, Et|].
    unfold noValueText. rewrite Hconfig.
    apply truthyString_true in Hnonempty. rewrite Hnonempty.
    apply truthyString_true, Hnonempty. }
  unfold processValue.
  destruct (mappedLocals config value) as [[text0 numeric0] shouldFormat].
  destruct (negb (is_nan numeric0)); [|apply Hfallback].
  destruct (localsAtLine91 _ _ _ _) as [[[text numeric] prefix] suffix].
  destruct (truthyString text) eqn:Et; [|apply Hfallback].
  exists text. split; [|apply truthyString_true, Et].
  unfold spread. rewrite lookup_union_r by apply Hscale.
  apply displayValue_lookup.
Qed.

(** X8. A boolean value, and a value that a mapping matches, is never passed
    to the formatter: the display value is the same whatever the
    formatter. *)
Theorem booleans_and_mapped_values_skip_the_formatter (config : FieldConfig)
    (formatFunc formatFunc' : ValueFormatter) (scaleFunc : number -> JsObject)
    (isUtc : option bool) (value : JsValue) :
  lodash_isBoolean value = true \/ matchedMapping config value <> None ->
  processValue config formatFunc scaleFunc isUtc value =
  processValue config formatFunc' scaleFunc isUtc value.
Proof.
  intros Hskip. unfold processValue, localsAtLine91.
  pose proof (mappedLocals_shouldFormat config value) as Hsf.
  destruct (mappedLocals config value) as [[text0 numeric0] shouldFormat].
  cbn [snd] in Hsf.
  assert (Hoff : shouldFormat && negb (lodash_isBoolean value) = false).
  { destruct Hskip as [Hbool|Hmapped].
    - rewrite Hbool. apply andb_false_r.
    - subst shouldFormat. destruct (matchedMapping config value);
        [reflexivity|contradiction]. }
  rewrite Hoff. reflexivity.
Qed.

(** X9. When a mapping matches the value and its text is not empty, that
    text is displayed as it is, without prefix or suffix; the scale
    information is added when the numeric value is a number. *)
Theorem mapped_text_is_displayed (config : FieldConfig)
    (formatFunc : ValueFormatter) (scaleFunc : number -> JsObject)
    (isUtc : option bool) (value : JsValue) (mappedValue : ValueMapping) :
  matchedMapping config value = Some mappedValue ->
  mapping_text mappedValue <> "" ->
  let numeric := displayNumeric config value in
  processValue config formatFunc scaleFunc isUtc value =
    if is_nan numeric then
      displayValue (mapping_text mappedValue) numeric None None
    else
      spread (displayValue (mapping_text mappedValue) numeric None None)
        (scaleFunc numeric).
Proof.
  intros Hmatch Htext numeric. apply truthyString_true in Htext.
  unfold processValue, localsAtLine91.
  pose proof (mappedLocals_numeric config value) as Hn.
  pose proof (mappedLocals_text config value) as Ht.
  pose proof (mappedLocals_shouldFormat config value) as Hsf.
  unfold unformattedText in Ht. rewrite Hmatch in Ht, Hsf.
  destruct (mappedLocals config value) as [[text0 numeric0] shouldFormat].
  cbn [fst snd] in Hn, Ht, Hsf. subst text0 numeric0 shouldFormat.
  fold numeric. destruct (is_nan numeric); cbn [negb andb].
  - rewrite withoutScale_eq, Htext. reflexivity.
  - rewrite Htext. reflexivity.
Qed.

(** X10. A value that is not a boolean, that no mapping matches and that
    converts to a number is formatted: [numeric] is the conversion of the
    input, the decimals come from [getDecimalsForValue] on the raw value
    and [config.decimals], the prefix and the suffix are the formatter's,
    and the text is the formatter's unless a mapping matches that text.
    When the text is not empty the scale information of [numeric] is
    added. *)
Theorem unmapped_number_is_formatted_and_scaled (config : FieldConfig)
    (formatFunc : ValueFormatter) (scaleFunc : number -> JsObject)
    (isUtc : option bool) (value : JsValue) :
  matchedMapping config value = None ->
  lodash_isBoolean value = false ->
  is_nan (toNumber value) = false ->
  let d := getDecimalsForValue (ToNumber value) (config_decimals config) in
  let v := formatFunc (toNumber value) (decimals d) (scaledDecimals d) isUtc in
  let text :=
    match matchedMapping config (JsStr (formatted_text v)) with
    | Some mappedValue => mapping_text mappedValue
    | None => formatted_text v
    end in
  text <> "" ->
  processValue config formatFunc scaleFunc isUtc value =
    spread
      (displayValue text (toNumber value) (formatted_prefix v)
         (formatted_suffix v))
      (scaleFunc (toNumber value)).
Proof.
  intros Hmatch Hbool Hnum d v text Htext. apply truthyString_true in Htext.
  unfold processValue, localsAtLine91, formattedLocals, mappedLocals.
  rewrite Hmatch, Hnum, Hbool. cbn [negb andb].
  fold d. fold v. fold text. rewrite Htext. reflexivity.
Qed.

End ProcessorPaths.

(** * More on [getDisplayProcessor]: what it does to the heap *)

Section HeapEffect.
Context `{JsRuntime} `{Lodash} `{GrafanaData}.

(** The unit that a time field receives. *)
Definition defaultTimeUnit : string := ("time:" ++ DEFAULT_DATE_TIME_FORMAT)%string.

(** [unit] passes one of the two tests of lines 37 and 39. *)
Definition validTimeUnit (unit : string) : bool :=
  truthyString unit && (timeFormats_truthy unit || startsWith_time unit).

Lemma defaultTimeUnit_valid : validTimeUnit defaultTimeUnit = true.
Proof.
  unfold validTimeUnit, defaultTimeUnit.
  replace (startsWith_time ("time:" ++ DEFAULT_DATE_TIME_FORMAT)%string)
    with true by (destruct DEFAULT_DATE_TIME_FORMAT; reflexivity).
  replace (truthyString ("time:" ++ DEFAULT_DATE_TIME_FORMAT)%string)
    with true by (destruct DEFAULT_DATE_TIME_FORMAT; reflexivity).
  cbn [andb]. first [reflexivity | apply orb_true_r].
Qed.

(** The heap that [processorEnv] leaves: the given one, or the given one
    with the default time unit written to the field's configuration. *)
Lemma processorEnv_heap (f : Field) (theme : option GrafanaTheme) (h : Heap) :
  ((field_type f <> Some FieldType_time \/ field_config f = None) /\
   (processorEnv f theme h).2 = h) \/
  (exists l u,
     field_type f = Some FieldType_time /\ field_config f = Some l /\
     config_unit (default emptyConfig (h !! l)) = Some u /\
     validTimeUnit u = true /\
     (processorEnv f theme h).2 = h) \/
  (exists l,
     field_type f = Some FieldType_time /\ field_config f = Some l /\
     (forall u, config_unit (default emptyConfig (h !! l)) = Some u ->
        validTimeUnit u = false) /\
     (processorEnv f theme h).2 =
       <[l := setUnit defaultTimeUnit (default emptyConfig (h !! l))]> h).
Proof.
  unfold processorEnv, validTimeUnit.
  destruct (field_type f) as [[|name]|];
    [|left; split; [left; discriminate|reflexivity]..].
  destruct (field_config f) as [l|];
    [|left; split; [right; reflexivity|reflexivity]].
  right. cbn [readConfig].
  destruct (config_unit (default emptyConfig (h !! l))) as [u|] eqn:Eu.
  - destruct (truthyString u && (timeFormats_truthy u || startsWith_time u))
      eqn:Ev.
    + left. exists l, u. repeat split; try assumption; try reflexivity.
      destruct (truthyString u), (timeFormats_truthy u), (startsWith_time u);
        try discriminate Ev; reflexivity.
    + right. exists l. repeat split.
      * intros u' Hu'. assert (u' = u) as -> by congruence. exact Ev.
      * destruct (truthyString u), (timeFormats_truthy u), (startsWith_time u);
          try discriminate Ev; reflexivity.
  - right. exists l. repeat split. congruence.
Qed.

Lemma getDisplayProcessor_heap (options : option DisplayProcessorOptions) (h : Heap) :
  (getDisplayProcessor options h).2 = h \/
  exists o f, options = Some o /\ field o = Some f /\
    (getDisplayProcessor options h).2 = (processorEnv f (theme o) h).2.
Proof.
  unfold getDisplayProcessor. destruct options as [o|]; [|left; reflexivity].
  destruct (lodash_isEmpty o); [left; reflexivity|].
  destruct (field o) as [f|] eqn:Hf; [|left; reflexivity].
  right. exists o, f.
  destruct (processorEnv f (theme o) h) as [[[config formatFunc] scaleFunc] h1].
  repeat split; first [exact Hf | reflexivity].
Qed.

(** X11. Calling [getDisplayProcessor] again with the same options changes
    nothing more: the heap left by the first call is left as it is by the
    second. *)
Theorem getDisplayProcessor_settles_the_unit
    (options : option DisplayProcessorOptions) (h : Heap) :
  let h1 := (getDisplayProcessor options h).2 in
  (getDisplayProcessor options h1).2 = h1.
Proof.
  intros h1. subst h1.
  destruct (getDisplayProcessor_heap options h) as [Hh|(o & f & -> & Hf & Hh)].
  { rewrite Hh. exact Hh. }
  rewrite Hh. rewrite (getDisplayProcessor_with_field _ _ _ Hf).
  cbn zeta. cbn [snd]. clear Hh.
  destruct (processorEnv_heap f (theme o) h)
    as [[_ Hh]|[(l & u & _ & _ & _ & _ & Hh)|(l & Hty & Hl & Hbad & Hh)]].
  - rewrite Hh. exact Hh.
  - rewrite Hh. exact Hh.
  - rewrite Hh.
    set (h1 := <[l := setUnit defaultTimeUnit (default emptyConfig (h !! l))]> h).
    destruct (processorEnv_heap f (theme o) h1)
      as [[_ Hh']|[(l' & u & _ & _ & _ & _ & Hh')|(l' & _ & Hl' & Hbad' & _)]];
      try exact Hh'.
    exfalso. assert (l' = l) as -> by congruence.
    specialize (Hbad' defaultTimeUnit).
    unfold h1 in Hbad'. rewrite lookup_insert_eq in Hbad'.
    rewrite defaultTimeUnit_valid in Hbad'. discriminate (Hbad' eq_refl).
Qed.

Lemma recognized_unit_is_valid (u : string) :
  u ∈ recognizedTimeFormats -> validTimeUnit u = true.
Proof.
  intros Hin. apply list_elem_of_In in Hin. simpl in Hin.
  destruct Hin as [<-|[<-|[<-|[]]]]; reflexivity.
Qed.

Lemma time_prefix_is_valid (u : string) :
  startsWith_time u = true -> validTimeUnit u = true.
Proof.
  intros Hpre. unfold validTimeUnit. rewrite Hpre, orb_true_r, andb_true_r.
  destruct u; [discriminate Hpre|reflexivity].
Qed.

(** X12. A unit that [timeFormats] lists, and a unit that starts with
    ['time:'], is kept: the call leaves the whole heap as it is. *)
Theorem valid_time_unit_is_kept (options : DisplayProcessorOptions) (f : Field)
    (h : Heap) (l : positive) (c : FieldConfig) (u : string) :
  field options = Some f ->
  field_config f = Some l ->
  h !! l = Some c ->
  config_unit c = Some u ->
  u ∈ recognizedTimeFormats \/ startsWith_time u = true ->
  (getDisplayProcessor (Some options) h).2 = h.
Proof.
  intros Hf Hl Hc Hu Hvalid.
  rewrite (getDisplayProcessor_with_field _ _ _ Hf). cbn zeta. cbn [snd].
  destruct (processorEnv_heap f (theme options) h)
    as [[_ Hh]|[(l' & u' & _ & _ & _ & _ & Hh)|(l' & _ & Hl' & Hbad & _)]];
    try exact Hh.
  exfalso. assert (l' = l) as -> by congruence.
  specialize (Hbad u). rewrite Hc in Hbad. cbn in Hbad.
  specialize (Hbad Hu).
  destruct Hvalid as [Hrec|Hpre];
    [rewrite (recognized_unit_is_valid u Hrec) in Hbad
    |rewrite (time_prefix_is_valid u Hpre) in Hbad]; discriminate Hbad.
Qed.

(** X13. After the call, the configuration object of a time field holds a
    unit that passes the tests of the time branch: a non-empty string that
    [timeFormats] answers for or that starts with ['time:']. *)
Theorem time_field_ends_with_a_valid_unit (options : DisplayProcessorOptions)
    (f : Field) (h : Heap) (l : positive) :
  field options = Some f ->
  field_type f = Some FieldType_time ->
  field_config f = Some l ->
  exists c' u,
    (getDisplayProcessor (Some options) h).2 !! l = Some c' /\
    config_unit c' = Some u /\
    validTimeUnit u = true.
Proof.
  intros Hf Hty Hl.
  rewrite (getDisplayProcessor_with_field _ _ _ Hf). cbn zeta. cbn [snd].
  destruct (processorEnv_heap f (theme options) h)
    as [[Hcase _]|[(l' & u & _ & Hl' & Hu & Hvalid & Hh)|(l' & _ & Hl' & _ & Hh)]].
  - destruct Hcase; congruence.
  - assert (l' = l) as -> by congruence. rewrite Hh.
    destruct (h !! l) as [c|] eqn:Hc; [|discriminate Hu].
    exists c, u. repeat split; assumption.
  - assert (l' = l) as -> by congruence. rewrite Hh.
    eexists _, defaultTimeUnit. rewrite lookup_insert_eq.
    repeat split. apply defaultTimeUnit_valid.
Qed.

(** X14. Whatever the options, the call removes no object from the heap and
    changes nothing of an object but, at most, its unit, which then is the
    default time unit. *)
Theorem getDisplayProcessor_changes_units_only
    (options : option DisplayProcessorOptions) (h : Heap) (l : positive)
    (c : FieldConfig) :
  h !! l = Some c ->
  exists c',
    (getDisplayProcessor options h).2 !! l = Some c' /\
    (config_unit c' = config_unit c \/ config_unit c' = Some defaultTimeUnit) /\
    config_decimals c' = config_decimals c /\
    config_mappings c' = config_mappings c /\
    config_noValue c' = config_noValue c /\
    config_rest c' = config_rest c.
Proof.
  intros Hc.
  assert (Hsame : forall h', h' = h -> exists c',
    h' !! l = Some c' /\
    (config_unit c' = config_unit c \/ config_unit c' = Some defaultTimeUnit) /\
    config_decimals c' = config_decimals c /\
    config_mappings c' = config_mappings c /\
    config_noValue c' = config_noValue c /\ config_rest c' = config_rest c).
  { intros h' ->. exists c. repeat split; auto. }
  destruct (getDisplayProcessor_heap options h) as [Hh|(o & f & -> & Hf & Hh)];
    [apply Hsame, Hh|].
  rewrite Hh.
  destruct (processorEnv_heap f (theme o) h)
    as [[_ Hh']|[(l' & u & _ & _ & _ & _ & Hh')|(l' & _ & _ & _ & Hh')]];
    try (apply Hsame, Hh').
  rewrite Hh'. destruct (decide (l' = l)) as [->|Hne].
  - rewrite lookup_insert_eq, Hc. eexists. split; [reflexivity|].
    repeat split. right. reflexivity.
  - rewrite lookup_insert_ne by exact Hne. exists c. repeat split; auto.
Qed.

(** What the closure hands to [getValueFormat]: [config.unit || 'none'] on
    the configuration as the creation leaves it. *)
Definition formatUnit (c : FieldConfig) : string :=
  match config_unit c with
  | Some u => if truthyString u then u else "none"
  | None => "none"
  end.

(** X15. The processor reads [mappings], [decimals] and [noValue] from the
    caller's configuration object as it is when the processor is called,
    while the formatter is the one of the unit that the object held when the
    processor was created: a unit written to the object afterwards has no
    effect on the processor. *)
Theorem processor_binds_the_unit_early (options : DisplayProcessorOptions)
    (f : Field) (l : positive) (h0 h : Heap) (c0 c : FieldConfig)
    (value : JsValue) :
  field options = Some f ->
  field_config f = Some l ->
  (getDisplayProcessor (Some options) h0).2 !! l = Some c0 ->
  h !! l = Some c ->
  let processor := (getDisplayProcessor (Some options) h0).1 in
  (processor value h).1 =
    processValue c (getValueFormat (formatUnit c0))
      (getScaleCalculator f (getDisplayProcessor (Some options) h0).2
         (theme options))
      (isUtc options) value /\
  (forall u, (processor value (<[l := setUnit u c]> h)).1 = (processor value h).1).
Proof.
  intros Hf Hl Hc0 Hc.
  rewrite (getDisplayProcessor_with_field _ _ _ Hf) in *. cbn zeta in *.
  cbn [fst snd] in *.
  pose proof (processorEnv_config f (theme options) h0) as Hconfig.
  rewrite Hl in Hconfig.
  assert (Henv :
    (processorEnv f (theme options) h0).1.1.2 = getValueFormat (formatUnit c0) /\
    (processorEnv f (theme options) h0).1.2 =
      getScaleCalculator f (processorEnv f (theme options) h0).2 (theme options)).
  { revert Hc0 Hconfig. unfold processorEnv.
    destruct (match field_type f with Some FieldType_time => _ | _ => _ end)
      as [config' h1].
    cbn [fst snd]. intros Hc0 ->. cbn [readConfig]. rewrite Hc0.
    split; reflexivity. }
  destruct Henv as [Hformat Hscale]. rewrite Hconfig, Hformat, Hscale.
  cbn [readConfig]. rewrite Hc. cbn [default from_option].
  split; [reflexivity|].
  intros u. rewrite lookup_insert_eq. reflexivity.
Qed.

End HeapEffect.

(** * More on the gauge: [draw] and the thresholds *)

(** The props with another threshold list. *)
Definition withThresholds (props : Gauge.Props) (ths : list Threshold) : Gauge.Props :=
  {| Gauge.height := Gauge.height props;
     Gauge.maxValue := Gauge.maxValue props;
     Gauge.minValue := Gauge.minValue props;
     Gauge.scale := {| Gauge.mode := Gauge.mode (Gauge.scale props);
                       Gauge.thresholds := ths |};
     Gauge.showThresholdMarkers := Gauge.showThresholdMarkers props;
     Gauge.showThresholdLabels := Gauge.showThresholdLabels props;
     Gauge.width := Gauge.width props;
     Gauge.value := Gauge.value props;
     Gauge.theme := Gauge.theme props |}.

Section DrawFacts.
Context `{Gauge.GrafanaUi} `{Gauge.Flot}.
Import Gauge.


(** X17. [draw] throws only when the threshold list is empty: what it throws
    is then the [TypeError] of [getFormattedThresholds], and the page and the
    console are as before. *)
Theorem draw_throws_only_without_thresholds (this : Instance) (w : World)
    (e : Exception) :
  (draw this w).1 = Throw e ->
  thresholds (scale (props this)) = [] /\
  e = TypeError "Cannot read property 'color' of undefined" /\
  (draw this w).2 = w.
Proof.
  unfold draw.
  destruct (last (thresholds (scale (props this)))) as [lt|] eqn:Hlast.
  - rewrite (getFormattedThresholds_ok _ lt Hlast).
    destruct (plot _ _ _ _) as [[[]|err] dom1]; discriminate.
  - apply last_None in Hlast.
    rewrite (getFormattedThresholds_empty _ Hlast). intros [= <-]. auto.
Qed.

(** X18. The value of the first threshold plays no part: the first
    breakpoint takes [minValue] in its place, so another value there gives
    the same breakpoints. *)
Theorem first_threshold_value_is_ignored (props : Props) (first : Threshold)
    (rest : list Threshold) (v : number) :
  thresholds (scale props) = first :: rest ->
  getFormattedThresholds
    (withThresholds props
       ({| threshold_value := v; threshold_color := threshold_color first |}
        :: rest)) =
  getFormattedThresholds props.
Proof.
  intros Hths.
  set (first' := {| threshold_value := v;
                    threshold_color := threshold_color first |}).
  set (props' := withThresholds props (first' :: rest)).
  assert (Hlast : exists lt lt',
    last (thresholds (scale props)) = Some lt /\
    last (thresholds (scale props')) = Some lt' /\
    threshold_color lt' = threshold_color lt).
  { rewrite Hths. subst props'. cbn [withThresholds scale thresholds].
    destruct rest as [|second rest']; [exists first, first'; auto|].
    rewrite !last_cons_cons. destruct (last (second :: rest')) as [lt|] eqn:E;
      [|apply last_None in E; discriminate E].
    exists lt, lt. auto. }
  destruct Hlast as (lt & lt' & Hlt & Hlt' & Hcolor).
  rewrite (getFormattedThresholds_ok props lt Hlt).
  rewrite (getFormattedThresholds_ok props' lt' Hlt').
  unfold resolvedColor. rewrite Hcolor. rewrite Hths.
  subst props'. cbn [withThresholds scale thresholds maxValue theme imap].
  f_equal. f_equal. f_equal.
  apply imap_ext. intros i t Hi. unfold compose, formattedAt.
  cbn [Nat.eqb withThresholds scale thresholds minValue theme].
  rewrite Hths. rewrite Nat.sub_succ, Nat.sub_0_r.
  destruct i as [|i]; reflexivity.
Qed.

End DrawFacts.

(** * More on the raw InfluxQL editor *)

Section EditorPaths.
Import RawInfluxQLEditor.

(** [v] is [null] or [undefined]: what [??] replaces. *)
Definition isNullish (v : JsValue) : bool :=
  match v with JsNull | JsUndefined => true | _ => false end.

(** X19. The select shows the result format of the query unless that
    property is absent, [null] or [undefined], and ['time_series'] then; it
    never shows [null] or [undefined].  In particular, once the query that
    the select handler emits has come back as the query prop, the select
    shows the selected value, or ['time_series'] when the selection carried
    no value. *)
Theorem select_value_is_defined (query : JsObject) (e : SelectableValue) :
  selectValue query =
    (if isNullish (getProperty query "resultFormat") then JsStr "time_series"
     else getProperty query "resultFormat") /\
  isNullish (selectValue query) = false /\
  (exists q,
     selectOnChange query e = [onChange q; onRunQuery] /\
     selectValue q =
       if isNullish (value e) then JsStr "time_series" else value e).
Proof.
  assert (Hshow : forall q : JsObject,
    selectValue q =
      if isNullish (getProperty q "resultFormat") then JsStr "time_series"
      else getProperty q "resultFormat").
  { intros q. unfold selectValue, DEFAULT_RESULT_FORMAT.
    destruct (getProperty q "resultFormat"); reflexivity. }
  split; [apply Hshow|]. split.
  - rewrite Hshow. destruct (getProperty query "resultFormat"); reflexivity.
  - eexists. split; [reflexivity|]. rewrite Hshow.
    assert (Hq : getProperty (spread query (<["resultFormat" := value e]> ∅))
                   "resultFormat" = value e).
    { unfold getProperty, spread.
      erewrite lookup_union_Some_l by (by simplify_map_eq). reflexivity. }
    rewrite Hq. reflexivity.
Qed.

End EditorPaths.

(** * The breakpoints in closed form *)

Section BreakpointFacts.
Context `{Gauge.GrafanaUi}.
Import Gauge.

Lemma map_imap_ext {A B C} (g : B -> C) (f1 : nat -> A -> B)
    (f2 : nat -> A -> C) (l : list A) :
  (forall i x, l !! i = Some x -> g (f1 i x) = f2 i x) ->
  map g (imap f1 l) = imap f2 l.
Proof.
  revert f1 f2. induction l as [|x l IH]; intros f1 f2 Hf; [reflexivity|].
  cbn [imap map]. f_equal; [apply (Hf 0%nat), eq_refl|].
  apply IH. intros i y Hi. apply (Hf (S i)), Hi.
Qed.

Lemma shifted_values (props : Props) (f : nat -> nat) (l : list Threshold) :
  (forall i, f i <> 0%nat) ->
  map breakpoint_value (imap (fun i t => formattedAt props (f i) t) l) =
  map threshold_value l.
Proof.
  revert f. induction l as [|t l IH]; intros f Hf; [reflexivity|].
  cbn [imap map]. f_equal.
  - unfold formattedAt. destruct (Nat.eqb_spec (f 0%nat) 0) as [E|_];
      [destruct (Hf _ E)|reflexivity].
  - apply (IH (f ∘ S)). intros i. apply Hf.
Qed.

Lemma shifted_colors (c : Threshold -> string) (previous : Threshold)
    (l : list Threshold) :
  map c (imap (fun i t => default t ((previous :: l) !! i)) l) ++
    [c (default previous (last (previous :: l)))] =
  map c (previous :: l).
Proof.
  revert previous. induction l as [|t l IH]; intros previous; [reflexivity|].
  pose proof (IH t) as IHt. cbn [map] in IHt.
  cbn [imap map app].
  change ((previous :: t :: l) !! 0%nat) with (Some previous).
  cbn [default from_option]. f_equal.
  rewrite last_cons_cons, <- IHt.
  assert (Hlast : default previous (last (t :: l)) = default t (last (t :: l))).
  { destruct (last (t :: l)) eqn:E; [reflexivity|].
    apply last_None in E. discriminate E. }
  rewrite Hlast. reflexivity.
Qed.

(** X22. On the thresholds [first :: rest] the values of the breakpoints
    are [minValue], the values of [rest] in order and [maxValue]; their
    colors are the color of [first] followed by the colors of all the
    thresholds in order, so the first color is the one that shows twice. *)
Theorem breakpoints_in_closed_form (props : Props) (first : Threshold)
    (rest : list Threshold) :
  thresholds (scale props) = first :: rest ->
  exists result,
    getFormattedThresholds props = Ok result /\
    map breakpoint_value result =
      minValue props :: map threshold_value rest ++ [maxValue props] /\
    map breakpoint_color result =
      resolvedColor props first :: map (resolvedColor props) (first :: rest).
Proof.
  intros Hths.
  destruct (last (thresholds (scale props))) as [lt|] eqn:Hlast;
    [|apply last_None in Hlast; congruence].
  eexists. split; [apply (getFormattedThresholds_ok props lt Hlast)|].
  rewrite Hths in *. cbn [imap]. rewrite !map_app. cbn [map app].
  split.
  - change (breakpoint_value (formattedAt props 0 first)) with (minValue props).
    apply (f_equal (cons (minValue props))).
    apply (f_equal (fun l => l ++ [maxValue props])).
    apply (shifted_values props S). discriminate.
  - change (breakpoint_color (formattedAt props 0 first))
      with (resolvedColor props first).
    apply (f_equal (cons (resolvedColor props first))).
    pose proof (shifted_colors (resolvedColor props) first rest) as Hshift.
    cbn [map] in Hshift. rewrite <- Hshift.
    rewrite Hlast. cbn [default from_option breakpoint_color]. f_equal.
    transitivity
      (imap (fun i t => resolvedColor props (default t ((first :: rest) !! i)))
         rest).
    + apply map_imap_ext. intros i t Hi. unfold compose, formattedAt.
      cbn [Nat.eqb breakpoint_color].
      rewrite Hths, Nat.sub_succ, Nat.sub_0_r. reflexivity.
    + symmetry. apply map_imap_ext. reflexivity.
Qed.

End BreakpointFacts.

(** * The further theorems at concrete inputs *)

Section MoreExamples.
#[local] Existing Instances Sample.runtime Sample.lodash Sample.data Sample.ui
  Sample.flot.

Lemma sample_log_nan_on_negative : Math_log_nan_on_negative.
Proof.
  intros x Hneg. cbn [Math_log Sample.runtime]. unfold Sample.log.
  assert (Hcmp : (0 <? x)%float = false /\ (x =? 0)%float = false /\
                 (x =? infinity)%float = false).
  { rewrite FloatAxioms.ltb_spec in Hneg.
    rewrite FloatAxioms.ltb_spec, !FloatAxioms.eqb_spec.
    change (Prim2SF 0) with (S754_zero false) in *.
    change (Prim2SF infinity) with (S754_infinity false).
    unfold SFltb, SFeqb in *.
    destruct (Prim2SF x) as [[]|[]| |[] m e]; simpl in *;
      try discriminate Hneg; auto. }
  destruct Hcmp as (-> & -> & ->). reflexivity.
Qed.

(** X1: the integer -3. *)
Lemma integral_value_gets_no_decimals_at_minus_three :
  decimals (getDecimalsForValue (-3)%float DecimalUndefined) = DecimalNumber 0%float.
Proof.
  apply (integral_value_gets_no_decimals (-3)%float DecimalUndefined);
    [reflexivity | vm_compute; reflexivity].
Defined.

(** X2: the fraction -1.5. *)
Lemma negative_fraction_gets_nan_decimals_at_minus_one_and_a_half :
  getDecimalsForValue (-1.5)%float DecimalNull =
    {| decimals := DecimalNumber nan; scaledDecimals := DecimalNumber nan |}.
Proof.
  apply (negative_fraction_gets_nan_decimals (-1.5)%float DecimalNull);
    [exact sample_log_nan_on_negative | reflexivity | vm_compute; reflexivity
    | vm_compute; reflexivity].
Defined.

(** X3: a text of 30 characters. *)
Lemma font_scale_sign_at_thirty :
  (Gauge.getFontScale (number_of_nat 30) <? 0)%float = true.
Proof.
  exact (proj2 (proj2 (font_scale_sign 30 ltac:(lia))) ltac:(lia)).
Defined.

(** X4: a gauge of 300 by 200 with a title. *)
Lemma calculateGaugeAutoProps_bounds_at_sample :
  let auto := Gauge.calculateGaugeAutoProps 300%float 200%float (JsStr "cpu") in
  (Gauge.showLabel auto = false <-> JsStr "cpu" = JsNull \/ JsStr "cpu" = JsUndefined) /\
  (is_nan (Gauge.titleFontSize auto) = false ->
   (Gauge.titleFontSize auto <=? 20)%float = true) /\
  (is_nan (Gauge.gaugeHeight auto) = false ->
   (Gauge.gaugeHeight auto <=? 300)%float = true) /\
  (Gauge.showLabel auto = false -> is_nan (Gauge.gaugeHeight auto) = false ->
   (Gauge.gaugeHeight auto <=? 200)%float = true).
Proof.
  exact (calculateGaugeAutoProps_bounds 300%float 200%float (JsStr "cpu")).
Defined.

(** X5: no options at all. *)
Lemma getDisplayProcessor_fallback_without_options :
  let r := ((getDisplayProcessor None heapWithMapping).1 (JsBool true)
              heapWithMapping).1 in
  getDisplayProcessor None heapWithMapping = (toStringProcessor, heapWithMapping) /\
  ((getDisplayProcessor None heapWithMapping).1 (JsBool true) heapWithMapping).2 =
    heapWithMapping /\
  r !! "text" = Some (JsStr (lodash_toString (JsBool true))) /\
  r !! "numeric" = Some (JsNum (toNumber (JsBool true))) /\
  (forall k : string, k <> "text" -> k <> "numeric" -> r !! k = None).
Proof.
  apply (getDisplayProcessor_fallback None heapWithMapping (JsBool true)
           heapWithMapping).
  intros o [=].
Defined.

Definition sampleScale : number -> JsObject :=
  Sample.scaleCalculator Sample.numberField heapWithMapping None.

(** X6: the text "abc" is no number. *)
Lemma nan_value_is_neither_formatted_nor_scaled_at_text :
  processValue configShort (Sample.valueFormat "short") sampleScale None
    (JsStr "abc") =
  displayValue
    (if truthyString (unformattedText configShort (JsStr "abc"))
     then unformattedText configShort (JsStr "abc") else noValueText configShort)
    (displayNumeric configShort (JsStr "abc")) None None.
Proof.
  apply (nan_value_is_neither_formatted_nor_scaled configShort
           (Sample.valueFormat "short") sampleScale None (JsStr "abc")).
  vm_compute. reflexivity.
Defined.

(** X7: [null] is displayed as the configured "-". *)
Lemma text_is_never_empty_with_noValue_at_null :
  exists text,
    processValue configShort (Sample.valueFormat "short") sampleScale None JsNull
      !! "text" = Some (JsStr text) /\
    text <> "".
Proof.
  apply (text_is_never_empty_with_noValue configShort (Sample.valueFormat "short")
           sampleScale None JsNull "-");
    [reflexivity | discriminate | intros n; reflexivity].
Defined.

(** X8: [true] under two formatters. *)
Lemma booleans_and_mapped_values_skip_the_formatter_at_true :
  processValue configShort (Sample.valueFormat "short") sampleScale None
    (JsBool true) =
  processValue configShort (Sample.valueFormat "percent") sampleScale None
    (JsBool true).
Proof.
  apply (booleans_and_mapped_values_skip_the_formatter configShort
           (Sample.valueFormat "short") (Sample.valueFormat "percent")
           sampleScale None (JsBool true)).
  left. reflexivity.
Defined.

(** X9: the value 10 under the mapping [10 -> "5"]. *)
Lemma mapped_text_is_displayed_at_ten :
  let numeric := displayNumeric Sample.configWithMapping (JsNum 10%float) in
  processValue Sample.configWithMapping (Sample.valueFormat "none") sampleScale
    None (JsNum 10%float) =
    if is_nan numeric then
      displayValue (mapping_text Sample.mapTenToFive) numeric None None
    else
      spread (displayValue (mapping_text Sample.mapTenToFive) numeric None None)
        (sampleScale numeric).
Proof.
  assert (Hmatch : matchedMapping Sample.configWithMapping (JsNum 10%float) =
                     Some Sample.mapTenToFive) by (vm_compute; reflexivity).
  apply (mapped_text_is_displayed Sample.configWithMapping
           (Sample.valueFormat "none") sampleScale None (JsNum 10%float)
           Sample.mapTenToFive Hmatch).
  discriminate.
Defined.

(** X10: the value 11, which the mapping does not match. *)
Lemma unmapped_number_is_formatted_and_scaled_at_eleven :
  let d := getDecimalsForValue (ToNumber (JsNum 11%float))
             (config_decimals Sample.configWithMapping) in
  let v := Sample.valueFormat "short" (toNumber (JsNum 11%float))
             (decimals d) (scaledDecimals d) None in
  let text :=
    match matchedMapping Sample.configWithMapping (JsStr (formatted_text v)) with
    | Some mappedValue => mapping_text mappedValue
    | None => formatted_text v
    end in
  processValue Sample.configWithMapping (Sample.valueFormat "short") sampleScale
    None (JsNum 11%float) =
    spread
      (displayValue text (toNumber (JsNum 11%float)) (formatted_prefix v)
         (formatted_suffix v))
      (sampleScale (toNumber (JsNum 11%float))).
Proof.
  assert (Hmatch : matchedMapping Sample.configWithMapping (JsNum 11%float) = None)
    by (vm_compute; reflexivity).
  apply (unmapped_number_is_formatted_and_scaled Sample.configWithMapping
           (Sample.valueFormat "short") sampleScale None (JsNum 11%float)
           Hmatch eq_refl eq_refl).
  vm_compute. discriminate.
Defined.

(** A configuration whose unit is one of the time formats. *)
Definition configIso : FieldConfig :=
  {| config_unit := Some "dateTimeAsIso"; config_decimals := DecimalUndefined;
     config_mappings := None; config_noValue := None; config_rest := ∅ |}.

(** X12: the unit [dateTimeAsIso] of a time field stays. *)
Lemma valid_time_unit_is_kept_at_iso :
  (getDisplayProcessor (Some (Sample.optionsOf Sample.timeField))
     {[ 1%positive := configIso ]}).2 = {[ 1%positive := configIso ]}.
Proof.
  assert (Hc : ({[ 1%positive := configIso ]} : Heap) !! 1%positive =
               Some configIso) by apply lookup_singleton_eq.
  assert (Hin : "dateTimeAsIso" ∈ recognizedTimeFormats)
    by (apply list_elem_of_In; simpl; tauto).
  exact (valid_time_unit_is_kept (Sample.optionsOf Sample.timeField)
           Sample.timeField {[ 1%positive := configIso ]} 1%positive configIso
           "dateTimeAsIso" eq_refl eq_refl Hc eq_refl (or_introl Hin)).
Defined.

(** X13: a time field whose unit was "short". *)
Lemma time_field_ends_with_a_valid_unit_at_short :
  exists c' u,
    (getDisplayProcessor (Some (Sample.optionsOf Sample.timeField))
       {[ 1%positive := configShort ]}).2 !! 1%positive = Some c' /\
    config_unit c' = Some u /\
    validTimeUnit u = true.
Proof.
  exact (time_field_ends_with_a_valid_unit (Sample.optionsOf Sample.timeField)
           Sample.timeField {[ 1%positive := configShort ]} 1%positive
           eq_refl eq_refl eq_refl).
Defined.

(** X14: the object of a time field whose unit was "short". *)
Lemma getDisplayProcessor_changes_units_only_at_short :
  exists c',
    (getDisplayProcessor (Some (Sample.optionsOf Sample.timeField))
       {[ 1%positive := configShort ]}).2 !! 1%positive = Some c' /\
    (config_unit c' = config_unit configShort \/
     config_unit c' = Some defaultTimeUnit) /\
    config_decimals c' = config_decimals configShort /\
    config_mappings c' = config_mappings configShort /\
    config_noValue c' = config_noValue configShort /\
    config_rest c' = config_rest configShort.
Proof.
  assert (Hc : ({[ 1%positive := configShort ]} : Heap) !! 1%positive =
               Some configShort) by apply lookup_singleton_eq.
  exact (getDisplayProcessor_changes_units_only
           (Some (Sample.optionsOf Sample.timeField))
           {[ 1%positive := configShort ]} 1%positive configShort Hc).
Defined.

(** The heap with the mapping, for a number field: nothing is written. *)
Lemma heapWithMapping_after :
  (getDisplayProcessor (Some (Sample.optionsOf Sample.numberField))
     heapWithMapping).2 !! 1%positive = Some Sample.configWithMapping.
Proof. vm_compute. reflexivity. Qed.

(** X15: a unit written after the creation does not reach the processor. *)
Lemma processor_binds_the_unit_early_at_eleven :
  let processor :=
    (getDisplayProcessor (Some (Sample.optionsOf Sample.numberField))
       heapWithMapping).1 in
  (processor (JsNum 11%float) heapWithMapping).1 =
    processValue Sample.configWithMapping
      (getValueFormat (formatUnit Sample.configWithMapping))
      (getScaleCalculator Sample.numberField
         (getDisplayProcessor (Some (Sample.optionsOf Sample.numberField))
            heapWithMapping).2
         (theme (Sample.optionsOf Sample.numberField)))
      (isUtc (Sample.optionsOf Sample.numberField)) (JsNum 11%float) /\
  (forall u,
     (processor (JsNum 11%float)
        (<[1%positive := setUnit u Sample.configWithMapping]> heapWithMapping)).1 =
     (processor (JsNum 11%float) heapWithMapping).1).
Proof.
  assert (Hc : heapWithMapping !! 1%positive = Some Sample.configWithMapping)
    by apply lookup_singleton_eq.
  exact (processor_binds_the_unit_early (Sample.optionsOf Sample.numberField)
           Sample.numberField 1%positive heapWithMapping heapWithMapping
           Sample.configWithMapping Sample.configWithMapping (JsNum 11%float)
           eq_refl eq_refl heapWithMapping_after Hc).
Defined.

(** The gauge without thresholds. *)
Definition gaugeWithoutThresholds : Gauge.Instance :=
  {| Gauge.props := Sample.gaugeProps 300%float [];
     Gauge.canvasElement := sampleCanvas |}.

(** X17: without thresholds [draw] throws and touches nothing. *)
Lemma draw_throws_only_without_thresholds_at_sample :
  Gauge.thresholds (Gauge.scale (Gauge.props gaugeWithoutThresholds)) = [] /\
  TypeError "Cannot read property 'color' of undefined" =
    TypeError "Cannot read property 'color' of undefined" /\
  (Gauge.draw gaugeWithoutThresholds emptyWorld).2 = emptyWorld.
Proof.
  assert (Hthrow : (Gauge.draw gaugeWithoutThresholds emptyWorld).1 =
                     Throw (TypeError "Cannot read property 'color' of undefined"))
    by (vm_compute; reflexivity).
  exact (draw_throws_only_without_thresholds gaugeWithoutThresholds emptyWorld
           _ Hthrow).
Defined.

(** X18: 50 in the place of the first threshold's value. *)
Lemma first_threshold_value_is_ignored_at_fifty :
  Gauge.getFormattedThresholds
    (withThresholds (Sample.gaugeProps 300%float Sample.twoThresholds)
       [ {| threshold_value := 50%float; threshold_color := "green" |};
         {| threshold_value := 80%float; threshold_color := "red" |} ]) =
  Gauge.getFormattedThresholds (Sample.gaugeProps 300%float Sample.twoThresholds).
Proof.
  exact (first_threshold_value_is_ignored
           (Sample.gaugeProps 300%float Sample.twoThresholds)
           {| threshold_value := neg_infinity; threshold_color := "green" |}
           [ {| threshold_value := 80%float; threshold_color := "red" |} ]
           50%float eq_refl).
Defined.

(** X22: the breakpoints of the two sample thresholds. *)
Lemma breakpoints_in_closed_form_at_two :
  exists result,
    Gauge.getFormattedThresholds
      (Sample.gaugeProps 300%float Sample.twoThresholds) = Ok result /\
    map Gauge.breakpoint_value result = [0%float; 80%float; 100%float] /\
    map Gauge.breakpoint_color result = ["green"; "green"; "red"].
Proof.
  exact (breakpoints_in_closed_form
           (Sample.gaugeProps 300%float Sample.twoThresholds)
           {| threshold_value := neg_infinity; threshold_color := "green" |}
           [ {| threshold_value := 80%float; threshold_color := "red" |} ]
           eq_refl).
Defined.

End MoreExamples.

(** * Formatters and the clock

    [getValueFormat(unit)] returns a function, and that function may read
    the clock when it is called: the formatter of [dateTimeFromNow], a unit
    that [timeFormats] lists, prints the distance between the value and the
    present moment.  An instance of [GrafanaData] fixes the formatters at one
    reading of the clock.  Here the reading is an argument: the processor is
    created once and each of its calls happens at a reading of its own. *)


(** The imports of the display processor, the formatters taking the reading
    of the clock at the moment they are called. *)
Class ClockedData := {
  clocked_DEFAULT_DATE_TIME_FORMAT : string;
  getValueFormatAt : number -> string -> ValueFormatter;
  clocked_getMappedValue : list ValueMapping -> JsValue -> option ValueMapping;
  clocked_getScaleCalculator :
    Field -> Heap -> option GrafanaTheme -> number -> JsObject
}.


Section Clock.
Context `{JsRuntime} `{Lodash} `{ClockedData}.



End Clock.

(** A formatter that reads the clock for [dateTimeFromNow] and no other
    unit. *)
Module SampleClock.

(** The distance in seconds between the value and the present moment, both
    in milliseconds. *)
Definition fromNow (now : number) : ValueFormatter :=
  fun n _ _ _ =>
    {| formatted_text :=
         (Sample.printNumber ((now - n) / 1000)%float ++ " seconds ago")%string;
       formatted_prefix := None;
       formatted_suffix := None |}.

#[local] Instance clocked : ClockedData :=
  {| clocked_DEFAULT_DATE_TIME_FORMAT := "YYYY-MM-DD HH:mm:ss";
     getValueFormatAt := fun now unit =>
       if String.eqb unit "dateTimeFromNow" then fromNow now
       else Sample.valueFormat unit;
     clocked_getMappedValue := Sample.mappedValue;
     clocked_getScaleCalculator := Sample.scaleCalculator |}.



End SampleClock.

Section ClockFacts.
Context `{JsRuntime} `{Lodash} `{ClockedData}.





End ClockFacts.

Section ClockExamples.
#[local] Existing Instances Sample.runtime Sample.lodash SampleClock.clocked.



End ClockExamples.
